(** * The news search screen and its API client

    A shallow embedding of [frontend/src/api_calls/newsAPI.jsx] (the three
    News Client operations) and of the [NewsPage] component (its state, the
    two event handlers [handleSearch] and [handleAddToWorkspace], and the
    parts of the render function that enable or disable the controls).

    JavaScript values are an untyped tree; the handlers are written in a
    small state-and-exception monad over the component state, split at their
    single [await]; a transition system on top runs the handlers the way
    the event loop does, each closure keeping the state of the render that
    created it. *)

From Stdlib Require Import ZArith String Ascii List Bool Lia DecimalString.
From stdpp Require Import base option gmap strings.

Open Scope string_scope.
Open Scope Z_scope.

Set Warnings "-register-all".

(** ** JavaScript values *)

Module Js.

(** Values as they come out of [JSON.parse], plus [undefined]. Numbers are
    the integer-valued ones; a string is a sequence of code units below 256.
    Arrays and objects are compared by structure: object identity is not
    part of the model. *)
Inductive JsVal : Type :=
  | JUndefined
  | JNull
  | JBool (b : bool)
  | JNum (n : Z)
  | JStr (s : string)
  | JArr (elems : list JsVal)
  | JObj (props : list (string * JsVal)).

(** The outcome of evaluating something that may throw. *)
Inductive Completion (A : Type) : Type :=
  | Normal (a : A)
  | Throw (e : JsVal).
Arguments Normal {A} a.
Arguments Throw {A} e.

(** [ToBoolean]: [undefined], [null], [false], [0] and [""] are falsy. *)
Definition truthy (v : JsVal) : bool :=
  match v with
  | JUndefined | JNull => false
  | JBool b => b
  | JNum n => negb (n =? 0)
  | JStr s => negb (String.eqb s "")
  | JArr _ | JObj _ => true
  end.

Definition is_nullish (v : JsVal) : bool :=
  match v with
  | JUndefined | JNull => true
  | _ => false
  end.

(** [a || b] on values already evaluated. *)
Definition or_else (a b : JsVal) : JsVal := if truthy a then a else b.

Fixpoint lookup_prop (k : string) (props : list (string * JsVal)) : option JsVal :=
  match props with
  | [] => None
  | (k', v) :: rest => if String.eqb k k' then Some v else lookup_prop k rest
  end.

Definition dquote : string := String (ascii_of_nat 34) EmptyString.
Definition squote : string := String (ascii_of_nat 39) EmptyString.

(** The [TypeError] a property read on [undefined] or [null] throws (the
    message is the one V8 prints). *)
Definition type_error (v : JsVal) (k : string) : JsVal :=
  JObj [("name", JStr "TypeError");
        ("message",
         JStr ("Cannot read properties of "
               ++ (match v with JNull => "null" | _ => "undefined" end)
               ++ " (reading " ++ squote ++ k ++ squote ++ ")"))].

(** Property read [v.k] for the property names the program uses (none of
    them is inherited from a prototype, [length] of arrays and strings
    apart). *)
Definition member (v : JsVal) (k : string) : JsVal :=
  match v with
  | JObj props => default JUndefined (lookup_prop k props)
  | JArr elems =>
      if String.eqb k "length" then JNum (Z.of_nat (List.length elems)) else JUndefined
  | JStr s =>
      if String.eqb k "length" then JNum (Z.of_nat (String.length s)) else JUndefined
  | _ => JUndefined
  end.

Definition get (v : JsVal) (k : string) : Completion JsVal :=
  if is_nullish v then Throw (type_error v k) else Normal (member v k).

(** Optional chaining [v?.k]. *)
Definition get_opt (v : JsVal) (k : string) : JsVal :=
  if is_nullish v then JUndefined else member v k.

(** Structural equality, used for [===] against a primitive and for the
    [SameValueZero] comparison of [Set]. *)
Fixpoint js_eqb (a b : JsVal) {struct a} : bool :=
  match a, b with
  | JUndefined, JUndefined => true
  | JNull, JNull => true
  | JBool x, JBool y => Bool.eqb x y
  | JNum x, JNum y => x =? y
  | JStr x, JStr y => String.eqb x y
  | JArr xs, JArr ys =>
      (fix elems_eqb (xs ys : list JsVal) {struct xs} : bool :=
         match xs, ys with
         | [], [] => true
         | x :: xs', y :: ys' => js_eqb x y && elems_eqb xs' ys'
         | _, _ => false
         end) xs ys
  | JObj ps, JObj qs =>
      (fix props_eqb (ps qs : list (string * JsVal)) {struct ps} : bool :=
         match ps, qs with
         | [], [] => true
         | (k, x) :: ps', (l, y) :: qs' =>
             String.eqb k l && js_eqb x y && props_eqb ps' qs'
         | _, _ => false
         end) ps qs
  | _, _ => false
  end.

Definition string_of_Z (n : Z) : string := NilZero.string_of_int (Z.to_int n).

Fixpoint join (sep : string) (parts : list string) : string :=
  match parts with
  | [] => ""
  | [p] => p
  | p :: rest => p ++ sep ++ join sep rest
  end.

(** [ToString], as a template literal and a computed property key apply
    it. *)
Fixpoint ToString (v : JsVal) : string :=
  match v with
  | JUndefined => "undefined"
  | JNull => "null"
  | JBool true => "true"
  | JBool false => "false"
  | JNum n => string_of_Z n
  | JStr s => s
  | JArr elems =>
      join ","
        ((fix each (l : list JsVal) : list string :=
            match l with
            | [] => []
            | e :: l' => (if is_nullish e then "" else ToString e) :: each l'
            end) elems)
  | JObj _ => "[object Object]"
  end.

(** [String.prototype.trim]: the white space and line terminator code
    units below 256. *)
Definition is_space (c : ascii) : bool :=
  let n := nat_of_ascii c in
  ((9 <=? n) && (n <=? 13) || (n =? 32) || (n =? 160))%nat.

Fixpoint trim_start (s : string) : string :=
  match s with
  | EmptyString => EmptyString
  | String c rest => if is_space c then trim_start rest else s
  end.

Fixpoint trim_end (s : string) : string :=
  match s with
  | EmptyString => EmptyString
  | String c rest =>
      match trim_end rest with
      | EmptyString => if is_space c then EmptyString else String c EmptyString
      | t => String c t
      end
  end.

Definition trim (s : string) : string := trim_end (trim_start s).

(** A [Set], in insertion order and without repetition. Membership
    compares by structure: that is [SameValueZero] on primitive values and
    on one and the same array or object; two distinct arrays or objects
    of the same shape, which a [Set] keeps apart, are not told apart
    here. *)
Definition JsSet := list JsVal.

Definition Set_has (s : JsSet) (v : JsVal) : bool := existsb (js_eqb v) s.

Definition Set_add (s : JsSet) (v : JsVal) : JsSet :=
  if Set_has s v then s else (s ++ [v])%list.

(** [new Set(iterable)]. *)
Definition Set_of (l : list JsVal) : JsSet := fold_left Set_add l [].

End Js.
Export Js.

(** ** The component state and the effects of a handler *)

Module Runtime.

(** The eleven [useState] variables of [NewsPage]. [isAdding] is a plain
    object used as a map from identifier to flag; [addedArticles] is a
    [Set]. *)
Record State : Type := mkState {
  query : string;
  category : string;
  language : string;
  articles : JsVal;
  loading : bool;
  error : JsVal;
  categories : JsVal;
  addedArticles : JsSet;
  activeWorkspace : JsVal;
  isAdding : gmap string bool;
  successMessage : string
}.

(** What a handler can touch: the component state, the console, the timers
    it has scheduled (each clears the success message when it fires; the
    delay is recorded) and the clock that [new Date().toISOString()]
    reads. *)
Record World : Type := mkWorld {
  screen : State;
  console : list (string * JsVal);
  timers : list Z;
  now : string
}.

Definition initialState : State :=
  {| query := ""; category := ""; language := "en"; articles := JArr [];
     loading := false; error := JStr ""; categories := JArr [];
     addedArticles := []; activeWorkspace := JNull; isAdding := ∅;
     successMessage := "" |}.

(** A computation that reads and writes the world and may throw. What it
    wrote before throwing stays written. *)
Definition Eff (A : Type) : Type := World -> Completion A * World.

Definition ret {A} (a : A) : Eff A := fun w => (Normal a, w).

Definition bind {A B} (c : Eff A) (k : A -> Eff B) : Eff B :=
  fun w =>
    match c w with
    | (Normal a, w') => k a w'
    | (Throw e, w') => (Throw e, w')
    end.

Definition throw {A} (e : JsVal) : Eff A := fun w => (Throw e, w).

(** An expression that was evaluated apart: continue with its value or
    rethrow. *)
Definition eval {A} (c : Completion A) : Eff A := fun w => (c, w).

Definition update (f : State -> State) : Eff unit :=
  fun w =>
    (Normal tt,
     {| screen := f (screen w); console := console w;
        timers := timers w; now := now w |}).

Declare Scope eff_scope.
Delimit Scope eff_scope with eff.
Notation "x <- c ;; k" := (bind c (fun x => k))
  (at level 100, c at next level, right associativity) : eff_scope.
Notation "c ;; k" := (bind c (fun _ => k))
  (at level 100, right associativity) : eff_scope.

(** [try { body } catch (e) { handler } finally { final }]. *)
Definition try_catch_finally
    (body : Eff unit) (handler : JsVal -> Eff unit) (final : Eff unit) : Eff unit :=
  fun w =>
    match body w with
    | (Normal _, w1) => final w1
    | (Throw e, w1) =>
        match handler e w1 with
        | (Normal _, w2) => final w2
        | (Throw e', w2) =>
            match final w2 with
            | (Normal _, w3) => (Throw e', w3)
            | thrown => thrown
            end
        end
    end.

(** The state setters. *)
Definition setArticles (v : JsVal) : Eff unit :=
  update (fun s =>
    {| query := query s; category := category s; language := language s;
       articles := v; loading := loading s; error := error s;
       categories := categories s; addedArticles := addedArticles s;
       activeWorkspace := activeWorkspace s; isAdding := isAdding s;
       successMessage := successMessage s |}).

Definition setLoading (b : bool) : Eff unit :=
  update (fun s =>
    {| query := query s; category := category s; language := language s;
       articles := articles s; loading := b; error := error s;
       categories := categories s; addedArticles := addedArticles s;
       activeWorkspace := activeWorkspace s; isAdding := isAdding s;
       successMessage := successMessage s |}).

Definition setError (v : JsVal) : Eff unit :=
  update (fun s =>
    {| query := query s; category := category s; language := language s;
       articles := articles s; loading := loading s; error := v;
       categories := categories s; addedArticles := addedArticles s;
       activeWorkspace := activeWorkspace s; isAdding := isAdding s;
       successMessage := successMessage s |}).

Definition setCategories (v : JsVal) : Eff unit :=
  update (fun s =>
    {| query := query s; category := category s; language := language s;
       articles := articles s; loading := loading s; error := error s;
       categories := v; addedArticles := addedArticles s;
       activeWorkspace := activeWorkspace s; isAdding := isAdding s;
       successMessage := successMessage s |}).

Definition setAddedArticles (a : JsSet) : Eff unit :=
  update (fun s =>
    {| query := query s; category := category s; language := language s;
       articles := articles s; loading := loading s; error := error s;
       categories := categories s; addedArticles := a;
       activeWorkspace := activeWorkspace s; isAdding := isAdding s;
       successMessage := successMessage s |}).

Definition setActiveWorkspace (v : JsVal) : Eff unit :=
  update (fun s =>
    {| query := query s; category := category s; language := language s;
       articles := articles s; loading := loading s; error := error s;
       categories := categories s; addedArticles := addedArticles s;
       activeWorkspace := v; isAdding := isAdding s;
       successMessage := successMessage s |}).

Definition setIsAdding (m : gmap string bool) : Eff unit :=
  update (fun s =>
    {| query := query s; category := category s; language := language s;
       articles := articles s; loading := loading s; error := error s;
       categories := categories s; addedArticles := addedArticles s;
       activeWorkspace := activeWorkspace s; isAdding := m;
       successMessage := successMessage s |}).

Definition setSuccessMessage (m : string) : Eff unit :=
  update (fun s =>
    {| query := query s; category := category s; language := language s;
       articles := articles s; loading := loading s; error := error s;
       categories := categories s; addedArticles := addedArticles s;
       activeWorkspace := activeWorkspace s; isAdding := isAdding s;
       successMessage := m |}).

Definition setQuery (q : string) : Eff unit :=
  update (fun s =>
    {| query := q; category := category s; language := language s;
       articles := articles s; loading := loading s; error := error s;
       categories := categories s; addedArticles := addedArticles s;
       activeWorkspace := activeWorkspace s; isAdding := isAdding s;
       successMessage := successMessage s |}).

Definition setCategory (c : string) : Eff unit :=
  update (fun s =>
    {| query := query s; category := c; language := language s;
       articles := articles s; loading := loading s; error := error s;
       categories := categories s; addedArticles := addedArticles s;
       activeWorkspace := activeWorkspace s; isAdding := isAdding s;
       successMessage := successMessage s |}).

Definition setLanguage (l : string) : Eff unit :=
  update (fun s =>
    {| query := query s; category := category s; language := l;
       articles := articles s; loading := loading s; error := error s;
       categories := categories s; addedArticles := addedArticles s;
       activeWorkspace := activeWorkspace s; isAdding := isAdding s;
       successMessage := successMessage s |}).

(** [console.error(label, value)]. *)
Definition console_error (label : string) (v : JsVal) : Eff unit :=
  fun w =>
    (Normal tt,
     {| screen := screen w; console := (console w ++ [(label, v)])%list;
        timers := timers w; now := now w |}).

(** [setTimeout(() => setSuccessMessage(""), delay)]. *)
Definition setTimeout_clearSuccess (delay : Z) : Eff unit :=
  fun w =>
    (Normal tt,
     {| screen := screen w; console := console w;
        timers := (timers w ++ [delay])%list; now := now w |}).

(** [new Date().toISOString()]. *)
Definition Date_now_toISOString : Eff JsVal := fun w => (Normal (JStr (now w)), w).

(** Two worlds that differ at most in the error message. *)
Definition same_but_error (w w' : World) : Prop :=
  console w' = console w /\ timers w' = timers w /\ now w' = now w
  /\ query (screen w') = query (screen w)
  /\ category (screen w') = category (screen w)
  /\ language (screen w') = language (screen w)
  /\ articles (screen w') = articles (screen w)
  /\ loading (screen w') = loading (screen w)
  /\ categories (screen w') = categories (screen w)
  /\ addedArticles (screen w') = addedArticles (screen w)
  /\ activeWorkspace (screen w') = activeWorkspace (screen w)
  /\ isAdding (screen w') = isAdding (screen w)
  /\ successMessage (screen w') = successMessage (screen w).

(** Two worlds that differ at most in the two messages. *)
Definition same_but_messages (w w' : World) : Prop :=
  console w' = console w /\ timers w' = timers w /\ now w' = now w
  /\ query (screen w') = query (screen w)
  /\ category (screen w') = category (screen w)
  /\ language (screen w') = language (screen w)
  /\ articles (screen w') = articles (screen w)
  /\ loading (screen w') = loading (screen w)
  /\ categories (screen w') = categories (screen w)
  /\ addedArticles (screen w') = addedArticles (screen w)
  /\ activeWorkspace (screen w') = activeWorkspace (screen w)
  /\ isAdding (screen w') = isAdding (screen w).

End Runtime.
Export Runtime.

(** ** newsAPI.jsx *)

Module NewsAPI.

(** One outbound call of the shared request layer ([api.post], [api.get]);
    a [GET] carries no body. *)
Record Request : Type := mkRequest {
  method : string;
  url : string;
  body : JsVal
}.

(** How the promise of the request layer settles: fulfilled with the
    response object (whose [data] is the parsed body), or rejected with an
    error object: its [response] is the server's response when the server
    answered, its [message] describes the failure. *)
Inductive Outcome : Type :=
  | Fulfilled (response : JsVal)
  | Rejected (error : list (string * JsVal)).

Definition await (o : Outcome) : Eff JsVal :=
  match o with
  | Fulfilled response => ret response
  | Rejected error => throw (JObj error)
  end.

(** [try { body } catch (error) { handler }] around a function body that
    returns from both blocks. *)
Definition try_catch {A} (body : Eff A) (handler : JsVal -> Eff A) : Eff A :=
  fun w =>
    match body w with
    | (Throw e, w') => handler e w'
    | returned => returned
    end.

(** A parameter's default value applies when the argument is [undefined]. *)
Definition default_arg (v d : JsVal) : JsVal :=
  match v with
  | JUndefined => d
  | _ => v
  end.

Section Client.

(** [API_BASE_URL] of [apiConfig], and the request layer. *)
Variable API_URL : string.
Variable api : Request -> Outcome.

Local Open Scope eff_scope.

Definition searchNews_request (query category language pageSize : JsVal) : Request :=
  {| method := "POST";
     url := API_URL ++ "/news/search";
     body := JObj [("query", query);
                   ("category", default_arg category JNull);
                   ("language", default_arg language (JStr "en"));
                   ("page_size", default_arg pageSize (JNum 10))] |}.

Definition searchNews (query category language pageSize : JsVal) : Eff JsVal :=
  try_catch
    (response <- await (api (searchNews_request query category language pageSize)) ;;
     data <- eval (get response "data") ;;
     ret (JObj [("success", JBool true); ("data", data)]))
    (fun error =>
       console_error "Error fetching news:" error ;;
       resp <- eval (get error "response") ;;
       err <- (if truthy resp then eval (get resp "data")
               else eval (get error "message")) ;;
       ret (JObj [("success", JBool false); ("error", err)])).

Definition getNewsCategories_request : Request :=
  {| method := "GET"; url := API_URL ++ "/news/categories"; body := JUndefined |}.

Definition getNewsCategories : Eff JsVal :=
  try_catch
    (response <- await (api getNewsCategories_request) ;;
     data <- eval (get response "data") ;;
     ret (JObj [("success", JBool true); ("data", data)]))
    (fun error =>
       console_error "Error fetching news categories:" error ;;
       resp <- eval (get error "response") ;;
       err <- (if truthy resp then eval (get resp "data")
               else eval (get error "message")) ;;
       ret (JObj [("success", JBool false); ("error", err)])).

Definition addNewsToWorkspace_request (articleData : JsVal) : Request :=
  {| method := "POST"; url := API_URL ++ "/news/add-to-workspace"; body := articleData |}.

Definition addNewsToWorkspace (articleData : JsVal) : Eff JsVal :=
  try_catch
    (response <- await (api (addNewsToWorkspace_request articleData)) ;;
     data <- eval (get response "data") ;;
     ret (JObj [("success", JBool true); ("data", data)]))
    (fun error =>
       console_error "Error adding news to workspace:" error ;;
       resp <- eval (get error "response") ;;
       err <- (if truthy resp then eval (get resp "data")
               else eval (get error "message")) ;;
       ret (JObj [("success", JBool false); ("error", err)])).

End Client.

(** A call of one of the three operations, as a handler issues it. *)
Inductive ClientCall : Type :=
  | SearchNews (query category language pageSize : JsVal)
  | GetNewsCategories
  | AddNewsToWorkspace (articleData : JsVal).

Definition request_of (API_URL : string) (c : ClientCall) : Request :=
  match c with
  | SearchNews q c l n => searchNews_request API_URL q c l n
  | GetNewsCategories => getNewsCategories_request API_URL
  | AddNewsToWorkspace d => addNewsToWorkspace_request API_URL d
  end.

Definition perform (API_URL : string) (api : Request -> Outcome) (c : ClientCall) : Eff JsVal :=
  match c with
  | SearchNews q c l n => searchNews API_URL api q c l n
  | GetNewsCategories => getNewsCategories API_URL api
  | AddNewsToWorkspace d => addNewsToWorkspace API_URL api d
  end.

(** The uniform result: [{success: true, data}] or [{success: false, error}]. *)
Definition success_result (data : JsVal) : JsVal :=
  JObj [("success", JBool true); ("data", data)].

Definition failure_result (err : JsVal) : JsVal :=
  JObj [("success", JBool false); ("error", err)].

(** [error.response ? error.response.data : error.message] for an error
    that is an object. *)
Definition reported_error (error : JsVal) : JsVal :=
  if truthy (member error "response") then member (member error "response") "data"
  else member error "message".

(** What an operation returns once its request settled to [o]: reading
    [data] off a response that is [undefined] or [null] throws inside the
    [try] block and is reported like any other error. *)
Definition client_result (o : Outcome) : JsVal :=
  match o with
  | Fulfilled response =>
      if is_nullish response
      then failure_result (reported_error (type_error response "data"))
      else success_result (member response "data")
  | Rejected error => failure_result (reported_error (JObj error))
  end.

End NewsAPI.
Export NewsAPI.

(** ** NewsPage: the handlers *)

Module NewsPage.

Local Open Scope eff_scope.

(** An async handler up to its [await]: it has either returned, or it has
    issued a call and waits with the rest of its body, which receives what
    the awaited promise settled to. *)
Inductive Async : Type :=
  | Finished
  | Awaiting (call : ClientCall) (resume : Completion JsVal -> Eff unit).

(** [a || b] with [b] evaluated only when needed. *)
Definition or_lazy (a b : Eff JsVal) : Eff JsVal :=
  x <- a ;; if truthy x then ret x else b.

(** Run a block and hand over how it completed. *)
Definition attempt {A} (c : Eff A) : Eff (Completion A) :=
  fun w => let (r, w') := c w in (Normal r, w').

Definition validation_message : string := "Please enter a search query".
Definition no_results_message : string :=
  "No news articles found. Try a different search query.".
Definition search_failed_message : string := "Failed to fetch news articles".
Definition search_error_message : string :=
  "An error occurred while fetching news. Please try again.".
Definition no_workspace_message : string :=
  "Please select a workspace first. Go to dashboard and select a workspace.".
Definition add_failed_message : string := "Failed to add article to workspace".

(** The part of [handleSearch] after [await searchNews(...)]: the rest of
    the [try] block, [catch] and [finally]. *)
Definition handleSearch_resume (settled : Completion JsVal) : Eff unit :=
  try_catch_finally
    (response <- eval settled ;;
     success <- eval (get response "success") ;;
     if truthy success then
       data <- eval (get response "data") ;;
       found <- eval (get data "articles") ;;
       setArticles (or_else found (JArr [])) ;;
       data <- eval (get response "data") ;;
       found <- eval (get data "articles") ;;
       len <- eval (get found "length") ;;
       if js_eqb len (JNum 0) then setError (JStr no_results_message) else ret tt
     else
       err <- eval (get response "error") ;;
       setError (or_else (get_opt err "message") (JStr search_failed_message)))
    (fun err =>
       setError (JStr search_error_message) ;;
       console_error "News search error:" err)
    (setLoading false).

(** [handleSearch], as the closure of a render with state [r]. *)
Definition handleSearch (r : State) : Eff Async :=
  if negb (truthy (JStr (trim (query r)))) then
    setError (JStr validation_message) ;;
    ret Finished
  else
    setLoading true ;;
    setError (JStr "") ;;
    setArticles (JArr []) ;;
    ret (Awaiting
           (SearchNews (JStr (query r)) (or_else (JStr (category r)) JNull)
                       (JStr (language r)) (JNum 20))
           handleSearch_resume).

(** [article.url || article.title], the identifier of an article. *)
Definition articleKey_of (article : JsVal) : Completion JsVal :=
  match get article "url" with
  | Normal u => if truthy u then Normal u else get article "title"
  | Throw e => Throw e
  end.

(** The argument of [addNewsToWorkspace]. *)
Definition articleData (r : State) (article : JsVal) : Eff JsVal :=
  title <- or_lazy (eval (get article "title")) (ret (JStr "")) ;;
  description <- or_lazy (eval (get article "description")) (ret (JStr "")) ;;
  content <- or_lazy (or_lazy (eval (get article "content"))
                              (eval (get article "description")))
                     (ret (JStr "")) ;;
  url <- or_lazy (eval (get article "url")) (ret (JStr "")) ;;
  source <- or_lazy (eval (get article "source")) (ret (JStr "Unknown")) ;;
  publishedAt <- or_lazy (eval (get article "publishedAt")) Date_now_toISOString ;;
  workspace_name <- eval (get (activeWorkspace r) "name") ;;
  ret (JObj [("title", title); ("description", description); ("content", content);
             ("url", url); ("source", source); ("publishedAt", publishedAt);
             ("workspace_name", workspace_name)]).

(** The [try]/[catch]/[finally] of [handleAddToWorkspace] around a [try]
    block [body]. *)
Definition handleAddToWorkspace_try
    (r : State) (articleKey : JsVal) (body : Eff unit) : Eff unit :=
  try_catch_finally
    body
    (fun err =>
       console_error "Error adding article:" err ;;
       setError (JStr add_failed_message) ;;
       setSuccessMessage "")
    (setIsAdding (<[ToString articleKey := false]> (isAdding r))).

(** The [try] block of [handleAddToWorkspace] after the [await]. *)
Definition handleAddToWorkspace_settled
    (r : State) (article articleKey : JsVal) (settled : Completion JsVal) : Eff unit :=
  response <- eval settled ;;
  success <- eval (get response "success") ;;
  if truthy success then
    setAddedArticles (Set_of (addedArticles r ++ [articleKey])%list) ;;
    title <- eval (get article "title") ;;
    name <- eval (get (activeWorkspace r) "name") ;;
    setSuccessMessage (dquote ++ ToString title ++ dquote ++ " added to "
                       ++ ToString name ++ " workspace!") ;;
    setError (JStr "") ;;
    setTimeout_clearSuccess 3000
  else
    err <- eval (get response "error") ;;
    setError (or_else (get_opt err "message") (JStr add_failed_message)) ;;
    setSuccessMessage "".

Definition handleAddToWorkspace_resume
    (r : State) (article articleKey : JsVal) (settled : Completion JsVal) : Eff unit :=
  handleAddToWorkspace_try r articleKey
    (handleAddToWorkspace_settled r article articleKey settled).

(** [handleAddToWorkspace], as the closure of a render with state [r]. *)
Definition handleAddToWorkspace (r : State) (article : JsVal) : Eff Async :=
  if negb (truthy (activeWorkspace r)) then
    setError (JStr no_workspace_message) ;;
    setSuccessMessage "" ;;
    ret Finished
  else
    articleKey <- eval (articleKey_of article) ;;
    setIsAdding (<[ToString articleKey := true]> (isAdding r)) ;;
    setError (JStr "") ;;
    setSuccessMessage "" ;;
    data <- attempt (articleData r article) ;;
    match data with
    | Normal data =>
        ret (Awaiting (AddNewsToWorkspace data)
                      (handleAddToWorkspace_resume r article articleKey))
    | Throw e =>
        handleAddToWorkspace_try r articleKey (throw e) ;;
        ret Finished
    end.

(** [loadCategories] of the first mount effect. *)
Definition loadCategories_resume (settled : Completion JsVal) : Eff unit :=
  response <- eval settled ;;
  success <- eval (get response "success") ;;
  if truthy success then
    data <- eval (get response "data") ;;
    cats <- eval (get data "categories") ;;
    setCategories (or_else cats (JArr []))
  else ret tt.

Definition loadCategories : Eff Async :=
  ret (Awaiting GetNewsCategories loadCategories_resume).

(** The second mount effect; [saved] is what [JSON.parse] makes of the
    stored string, [None] when nothing (or the empty string) is stored. *)
Definition loadActiveWorkspace (saved : option JsVal) : Eff unit :=
  match saved with
  | Some v => setActiveWorkspace v
  | None => ret tt
  end.

(** The call a handler issued, if it issued one. *)
Definition issued_call (h : Eff Async) (w : World) : option ClientCall :=
  match h w with
  | (Normal (Awaiting call _), _) => Some call
  | _ => None
  end.

(** Whether what the awaited call settled to takes the [response.success]
    branch. *)
Definition succeeded (settled : Completion JsVal) : bool :=
  match settled with
  | Normal response => negb (is_nullish response) && truthy (member response "success")
  | Throw _ => false
  end.

(** *** The render function, where it enables controls *)

(** [disabled={loading || !query.trim()}] of the submit button. *)
Definition searchButton_disabled (s : State) : bool :=
  loading s || negb (truthy (JStr (trim (query s)))).

(** The names every plain object inherits from [Object.prototype]: a read
    of one of them on [isAdding] finds a function or an object, both
    truthy, when [isAdding] has no property of its own by that name. *)
Definition inherited_names : list string :=
  ["constructor"; "toString"; "toLocaleString"; "valueOf"; "hasOwnProperty";
   "isPrototypeOf"; "propertyIsEnumerable"; "__proto__"; "__defineGetter__";
   "__defineSetter__"; "__lookupGetter__"; "__lookupSetter__"].

(** Whether [isAdding[key]] is truthy. *)
Definition isAdding_flag (m : gmap string bool) (key : JsVal) : bool :=
  match m !! ToString key with
  | Some b => b
  | None => existsb (String.eqb (ToString key)) inherited_names
  end.

(** [disabled={isAdded || isAddingArticle || !activeWorkspace}] of the add
    button of one rendered article. *)
Definition addButton_disabled (s : State) (article : JsVal) : Completion bool :=
  match articleKey_of article with
  | Normal articleKey =>
      let isAdded := Set_has (addedArticles s) articleKey in
      let isAddingArticle := isAdding_flag (isAdding s) articleKey in
      Normal (isAdded || isAddingArticle || negb (truthy (activeWorkspace s)))
  | Throw e => Throw e
  end.

End NewsPage.
Export NewsPage.

(** ** The screen as a transition system *)

Module Screen.

(** The world together with the calls in flight, each with the rest of the
    handler that issued it. *)
Record Config : Type := mkConfig {
  world : World;
  pending : list (ClientCall * (Completion JsVal -> Eff unit))
}.

Inductive Event : Type :=
  | TypeQuery (q : string)
  | ChooseCategory (c : string)
  | ChooseLanguage (l : string)
  | SubmitSearch
  | ClickAdd (index : nat)
  | Settles (index : nat) (o : Outcome)
  | TimerFires
  | ClockAdvances (t : string).

(** Run a handler to its [await] (or its end). An exception that escapes
    an async handler rejects a promise nobody looks at. *)
Definition invoke (h : Eff Async) (c : Config) : Config :=
  match h (world c) with
  | (Normal (Awaiting call resume), w) =>
      {| world := w; pending := (pending c ++ [(call, resume)])%list |}
  | (_, w) => {| world := w; pending := pending c |}
  end.

Definition act (h : Eff unit) (c : Config) : Config :=
  {| world := snd (h (world c)); pending := pending c |}.

Fixpoint remove_nth {A} (i : nat) (l : list A) : list A :=
  match l, i with
  | [], _ => []
  | _ :: rest, O => rest
  | x :: rest, S j => x :: remove_nth j rest
  end.

(** The article rendered at position [index], when the result list is
    rendered at all ([!loading && articles.length > 0]). *)
Definition rendered_article (s : State) (index : nat) : option JsVal :=
  if loading s then None
  else match articles s with
       | JArr elems => nth_error elems index
       | _ => None
       end.

Section Machine.

Variable API_URL : string.

(** The screen just after it mounted. *)
Definition mounted (saved : option JsVal) (clock : string) : Config :=
  act (loadActiveWorkspace saved)
    (invoke loadCategories
       {| world := {| screen := initialState; console := []; timers := [];
                      now := clock |};
          pending := [] |}).

(** One event. A control that is disabled, or not rendered, does not
    react. *)
Definition step (c : Config) (e : Event) : Config :=
  let s := screen (world c) in
  match e with
  | TypeQuery q => if loading s then c else act (setQuery q) c
  | ChooseCategory x => if loading s then c else act (setCategory x) c
  | ChooseLanguage l => if loading s then c else act (setLanguage l) c
  | SubmitSearch =>
      if searchButton_disabled s then c else invoke (handleSearch s) c
  | ClickAdd index =>
      match rendered_article s index with
      | Some article =>
          match addButton_disabled s article with
          | Normal false => invoke (handleAddToWorkspace s article) c
          | _ => c
          end
      | None => c
      end
  | Settles index o =>
      match nth_error (pending c) index with
      | Some (call, resume) =>
          act (fun w =>
                 let (settled, w') := perform API_URL (fun _ => o) call w in
                 resume settled w')
              {| world := world c; pending := remove_nth index (pending c) |}
      | None => c
      end
  | TimerFires =>
      match timers (world c) with
      | _ :: rest =>
          act (setSuccessMessage "")
              {| world := {| screen := s; console := console (world c);
                             timers := rest; now := now (world c) |};
                 pending := pending c |}
      | [] => c
      end
  | ClockAdvances t =>
      {| world := {| screen := s; console := console (world c);
                     timers := timers (world c); now := t |};
         pending := pending c |}
  end.

Definition run (c : Config) (events : list Event) : Config :=
  fold_left step events c.

(** The configurations some sequence of events leads to. *)
Definition reachable (saved : option JsVal) (clock : string) (c : Config) : Prop :=
  exists events, run (mounted saved clock) events = c.

(** A search from submission to settlement with nothing in between: the
    handler of the render with state [screen w], the call, and the rest
    of the handler. *)
Definition search_to_completion (api : Request -> Outcome) : Eff unit :=
  fun w =>
    match handleSearch (screen w) w with
    | (Normal (Awaiting call resume), w1) =>
        let (settled, w2) := perform API_URL api call w1 in
        resume settled w2
    | (Normal Finished, w1) => (Normal tt, w1)
    | (Throw e, w1) => (Throw e, w1)
    end.

(** The same for an add action. *)
Definition add_to_completion (api : Request -> Outcome) (article : JsVal) : Eff unit :=
  fun w =>
    match handleAddToWorkspace (screen w) article w with
    | (Normal (Awaiting call resume), w1) =>
        let (settled, w2) := perform API_URL api call w1 in
        resume settled w2
    | (Normal Finished, w1) => (Normal tt, w1)
    | (Throw e, w1) => (Throw e, w1)
    end.

End Machine.

End Screen.
Export Screen.

(** ** Sample data *)

Module Samples.

Definition workspace : JsVal := JObj [("name", JStr "Research")].

Definition storm : JsVal :=
  JObj [("title", JStr "Storm warning"); ("description", JStr "Heavy rain");
        ("url", JStr "https://a"); ("source", JStr "Wire")].

Definition market : JsVal :=
  JObj [("title", JStr "Market update"); ("url", JStr "https://b")].

(** An article with a description and nothing else. *)
Definition bare : list (string * JsVal) := [("description", JStr "Heavy rain")].

Definition clock : string := "2024-05-01T10:00:00.000Z".

Definition backend : string := "http://localhost:8000".

(** A screen on which the user typed [q], with [ws] as the workspace. *)
Definition typed (q : string) (ws : JsVal) : State :=
  {| query := q; category := ""; language := "en"; articles := JArr [];
     loading := false; error := JStr ""; categories := JArr [];
     addedArticles := []; activeWorkspace := ws; isAdding := ∅;
     successMessage := "" |}.

Definition world_of (s : State) : World :=
  {| screen := s; console := []; timers := []; now := clock |}.

(** Responses of the request layer. *)
Definition found (elems : list JsVal) : JsVal :=
  JObj [("status", JNum 200); ("data", JObj [("articles", JArr elems)])].

Definition stored : JsVal :=
  JObj [("status", JNum 200); ("data", JObj [("status", JStr "ok")])].


Definition category_list : JsVal :=
  JObj [("status", JNum 200);
        ("data", JObj [("categories", JArr [JStr "business"; JStr "science"])])].

(** A search finds two articles; the first is added; while that call is
    in flight a second search is submitted; the add call succeeds, then
    the second search comes back empty. *)
Definition search_during_add : list Event :=
  [Settles 0 (Fulfilled category_list);
   TypeQuery "storm"; SubmitSearch; Settles 0 (Fulfilled (found [storm; market]));
   ClickAdd 0;
   TypeQuery "zzz_no_match"; SubmitSearch;
   Settles 0 (Fulfilled stored);
   Settles 0 (Fulfilled (found []))].

(** A search finds two articles; both are added, the second click coming
    before the first call has settled; the second call succeeds first. *)
Definition second_add_settles_first : list Event :=
  [Settles 0 (Fulfilled category_list);
   TypeQuery "storm"; SubmitSearch; Settles 0 (Fulfilled (found [storm; market]));
   ClickAdd 0; ClickAdd 1;
   Settles 1 (Fulfilled stored)].

(** Then the first call succeeds too. *)
Definition both_adds_settled : list Event :=
  (second_add_settles_first ++ [Settles 0 (Fulfilled stored)])%list.

End Samples.

(** ** What a session keeps *)

Module Session.

Definition is_search (call : ClientCall) : bool :=
  match call with
  | SearchNews _ _ _ _ => true
  | _ => false
  end.

Definition is_add (call : ClientCall) : bool :=
  match call with
  | AddNewsToWorkspace _ => true
  | _ => false
  end.

Definition in_flight {K : Type} (kind : ClientCall -> bool)
    (pending : list (ClientCall * K)) : nat :=
  List.length (List.filter (fun entry => kind (fst entry)) pending).

(** A call in flight waits with the rest of the handler that issued it. *)
Inductive waits_properly : ClientCall * (Completion JsVal -> Eff unit) -> Prop :=
  | waits_search q c l n :
      waits_properly (SearchNews q c l n, handleSearch_resume)
  | waits_categories :
      waits_properly (GetNewsCategories, loadCategories_resume)
  | waits_add data r article articleKey :
      waits_properly (AddNewsToWorkspace data,
                      handleAddToWorkspace_resume r article articleKey).

(** The values a [Set] compares by value: everything but arrays and
    objects, which it compares by identity. *)
Definition is_primitive (v : JsVal) : bool :=
  match v with
  | JArr _ | JObj _ => false
  | _ => true
  end.

(** The label under which an operation logs a failure. *)
Definition failure_label (call : ClientCall) : string :=
  match call with
  | SearchNews _ _ _ _ => "Error fetching news:"
  | GetNewsCategories => "Error fetching news categories:"
  | AddNewsToWorkspace _ => "Error adding news to workspace:"
  end.

(** [w] with [entries] appended to the console. *)
Definition logged (entries : list (string * JsVal)) (w : World) : World :=
  {| screen := screen w; console := (console w ++ entries)%list;
     timers := timers w; now := now w |}.

(** What a search leaves alone: everything but the article list, the
    loading flag, the error and the console. *)
Definition search_leaves_alone (w w' : World) : Prop :=
  timers w' = timers w /\ now w' = now w
  /\ query (screen w') = query (screen w)
  /\ category (screen w') = category (screen w)
  /\ language (screen w') = language (screen w)
  /\ categories (screen w') = categories (screen w)
  /\ addedArticles (screen w') = addedArticles (screen w)
  /\ activeWorkspace (screen w') = activeWorkspace (screen w)
  /\ isAdding (screen w') = isAdding (screen w)
  /\ successMessage (screen w') = successMessage (screen w).

(** What an add action leaves alone: everything but the two messages,
    the set of added identifiers, the pending flags, the timers and the
    console. *)
Definition add_leaves_alone (w w' : World) : Prop :=
  now w' = now w
  /\ query (screen w') = query (screen w)
  /\ category (screen w') = category (screen w)
  /\ language (screen w') = language (screen w)
  /\ articles (screen w') = articles (screen w)
  /\ loading (screen w') = loading (screen w)
  /\ categories (screen w') = categories (screen w)
  /\ activeWorkspace (screen w') = activeWorkspace (screen w).

(** What loading the categories leaves alone: everything but the
    category list and the console. *)
Definition categories_leave_alone (w w' : World) : Prop :=
  timers w' = timers w /\ now w' = now w
  /\ query (screen w') = query (screen w)
  /\ category (screen w') = category (screen w)
  /\ language (screen w') = language (screen w)
  /\ articles (screen w') = articles (screen w)
  /\ loading (screen w') = loading (screen w)
  /\ error (screen w') = error (screen w)
  /\ addedArticles (screen w') = addedArticles (screen w)
  /\ activeWorkspace (screen w') = activeWorkspace (screen w)
  /\ isAdding (screen w') = isAdding (screen w)
  /\ successMessage (screen w') = successMessage (screen w).

(** [loadCategories] of the mount effect from its call to its end. *)
Definition categories_to_completion
    (API_URL : string) (api : Request -> Outcome) : Eff unit :=
  fun w =>
    let (settled, w') := perform API_URL api GetNewsCategories w in
    loadCategories_resume settled w'.

(** The workspace the mount effect leaves in the state. *)
Definition workspace_at_mount (saved : option JsVal) : JsVal :=
  match saved with
  | Some v => v
  | None => JNull
  end.

(** What every configuration of a session satisfies, for the workspace
    [ws] read at mount. *)
Record kept (ws : JsVal) (c : Config) : Prop := mkKept {
  kept_workspace : activeWorkspace (screen (world c)) = ws;
  kept_pending : Forall waits_properly (pending c);
  kept_one_search :
    in_flight is_search (pending c)
    = (if loading (screen (world c)) then 1 else 0)%nat;
  kept_no_results_while_loading :
    loading (screen (world c)) = true -> articles (screen (world c)) = JArr [];
  kept_timer_for_message :
    successMessage (screen (world c)) <> "" -> timers (world c) <> [];
  kept_nothing_added_without_workspace :
    truthy ws = false ->
    in_flight is_add (pending c) = 0%nat
    /\ addedArticles (screen (world c)) = []
    /\ isAdding (screen (world c)) = ∅
}.

End Session.
Export Session.

(** * Properties *)

(** ** Values and sets *)

Section ValueFacts.

Lemma js_eqb_refl : forall v, js_eqb v v = true.
Proof.
  fix IH 1. intros [ | | b | n | s | elems | props ]; simpl; trivial.
  - apply Bool.eqb_reflx.
  - apply Z.eqb_refl.
  - apply String.eqb_refl.
  - induction elems as [ | x xs IHxs ]; [ reflexivity | ].
    now rewrite IH, IHxs.
  - induction props as [ | [k x] ps IHps ]; [ reflexivity | ].
    now rewrite String.eqb_refl, IH, IHps.
Qed.

Lemma js_eqb_sound : forall a b, js_eqb a b = true -> a = b.
Proof.
  fix IH 1.
  intros [ | | x | x | x | xs | ps ] [ | | y | y | y | ys | qs ];
    simpl; intros H; try discriminate; trivial.
  - apply Bool.eqb_prop in H. now subst.
  - apply Z.eqb_eq in H. now subst.
  - apply String.eqb_eq in H. now subst.
  - f_equal. revert ys H.
    induction xs as [ | x xs IHxs ]; intros [ | y ys ] H; try discriminate; trivial.
    apply andb_prop in H as [Hx Hxs].
    f_equal; [ now apply IH | now apply IHxs ].
  - f_equal. revert qs H.
    induction ps as [ | [k x] ps IHps ]; intros [ | [l y] qs ] H;
      try discriminate; trivial.
    apply andb_prop in H as [H Hps]. apply andb_prop in H as [Hk Hx].
    apply String.eqb_eq in Hk. subst l.
    f_equal; [ f_equal; now apply IH | now apply IHps ].
Qed.

Lemma Set_has_app (s t : JsSet) v : Set_has (s ++ t)%list v = Set_has s v || Set_has t v.
Proof. unfold Set_has. apply existsb_app. Qed.

Lemma Set_has_add (s : JsSet) a v :
  Set_has (Set_add s a) v = Set_has s v || js_eqb v a.
Proof.
  unfold Set_add. destruct (Set_has s a) eqn:Ha.
  - destruct (js_eqb v a) eqn:Hva.
    + apply js_eqb_sound in Hva. subst v. now rewrite Ha.
    + now rewrite orb_false_r.
  - rewrite Set_has_app. simpl. now rewrite orb_false_r.
Qed.

Lemma Set_has_fold (l : list JsVal) (acc : JsSet) v :
  Set_has (fold_left Set_add l acc) v = Set_has acc v || existsb (js_eqb v) l.
Proof.
  revert acc. induction l as [ | a l IHl ]; intros acc; simpl.
  - now rewrite orb_false_r.
  - now rewrite IHl, Set_has_add, orb_assoc.
Qed.

(** [new Set(l)] has exactly the members of [l]. *)
Lemma Set_has_of (l : list JsVal) v : Set_has (Set_of l) v = existsb (js_eqb v) l.
Proof. unfold Set_of. now rewrite Set_has_fold. Qed.

(** [new Set([...s, k])] has [k] and keeps the members of [s]. *)
Lemma Set_of_snoc_has (s : JsSet) k : Set_has (Set_of (s ++ [k])%list) k = true.
Proof.
  rewrite Set_has_of, existsb_app. simpl.
  now rewrite js_eqb_refl, orb_true_r.
Qed.

Lemma Set_of_snoc_keeps (s : JsSet) k v :
  Set_has s v = true -> Set_has (Set_of (s ++ [k])%list) v = true.
Proof.
  intros H. rewrite Set_has_of, existsb_app. unfold Set_has in H. now rewrite H.
Qed.

Lemma truthy_JStr s : truthy (JStr s) = true <-> s <> "".
Proof.
  simpl. destruct (String.eqb_spec s ""); simpl; split; intros; congruence.
Qed.

Lemma get_object props k : get (JObj props) k = Normal (member (JObj props) k).
Proof. reflexivity. Qed.

Lemma get_not_nullish v k : is_nullish v = false -> get v k = Normal (member v k).
Proof. intros H. unfold get. now rewrite H. Qed.

Lemma truthy_not_nullish v : truthy v = true -> is_nullish v = false.
Proof. now destruct v. Qed.

End ValueFacts.

(** ** The News Client *)

Section ClientFacts.

Variable API_URL : string.
Variable api : Request -> Outcome.

(** The [catch] block of the three operations, on an error object. *)
Lemma catch_block_reports label (error : JsVal) (w : World) :
  is_nullish error = false ->
  (bind (console_error label error) (fun _ =>
     bind (eval (get error "response")) (fun resp =>
       bind (if truthy resp then eval (get resp "data")
             else eval (get error "message")) (fun err =>
         ret (JObj [("success", JBool false); ("error", err)]))))) w
  = (Normal (failure_result (reported_error error)),
     {| screen := screen w; console := (console w ++ [(label, error)])%list;
        timers := timers w; now := now w |}).
Proof.
  intros Herr. unfold bind, console_error, eval, ret, reported_error.
  rewrite (get_not_nullish _ _ Herr).
  destruct (truthy (member error "response")) eqn:Hresp.
  - now rewrite (get_not_nullish _ _ (truthy_not_nullish _ Hresp)).
  - now rewrite (get_not_nullish _ _ Herr).
Qed.

Lemma perform_returns (call : ClientCall) (w : World) :
  exists w',
    perform API_URL api call w
    = (Normal (client_result (api (request_of API_URL call))), w')
    /\ screen w' = screen w.
Proof.
  destruct call as [ q c l n | | d ]; simpl;
    unfold searchNews, getNewsCategories, addNewsToWorkspace, try_catch;
    unfold bind at 1;
    match goal with |- context [ api ?r ] => destruct (api r) as [ resp | err ] end;
    simpl.
  all: try (rewrite catch_block_reports by reflexivity; eexists; split; reflexivity).
  all: unfold eval, bind, get; destruct (is_nullish resp) eqn:Hn; simpl.
  all: try (eexists; split; reflexivity).
  all: match goal with
       | |- context [ console_error ?lbl ?e ] =>
           pose proof (catch_block_reports lbl e w eq_refl) as Hc
       end;
       unfold bind, eval in Hc; rewrite Hc; eexists; split; reflexivity.
Qed.

(** A request fulfilled with a response object: nothing is logged. *)
Lemma perform_fulfilled response (call : ClientCall) (w : World) :
  is_nullish response = false ->
  perform API_URL (fun _ => Fulfilled response) call w
  = (Normal (success_result (member response "data")), w).
Proof.
  intros H.
  destruct call as [ q c l n | | d ]; simpl;
    unfold searchNews, getNewsCategories, addNewsToWorkspace, try_catch,
      bind, await, ret, eval; simpl;
    now rewrite (get_not_nullish _ _ H).
Qed.

End ClientFacts.

(** C3. Whatever the request layer answers, each of [searchNews],
    [getNewsCategories] and [addNewsToWorkspace] returns normally (it does
    not throw), leaves the component state alone, and returns
    [{success: true, data}] or [{success: false, error}]; when the request
    was rejected the error is [error.response.data] if the error carries a
    response and [error.message] otherwise. *)
Theorem news_client_uniform_result
    (API_URL : string) (api : Request -> Outcome) (call : ClientCall) (w : World) :
  exists result w',
    perform API_URL api call w = (Normal result, w')
    /\ screen w' = screen w
    /\ ((exists data, result = JObj [("success", JBool true); ("data", data)])
        \/ (exists err, result = JObj [("success", JBool false); ("error", err)]))
    /\ match api (request_of API_URL call) with
       | Fulfilled response =>
           if is_nullish response
           then result = failure_result (reported_error (type_error response "data"))
           else result = success_result (member response "data")
       | Rejected error =>
           result = failure_result
                      (if truthy (member (JObj error) "response")
                       then member (member (JObj error) "response") "data"
                       else member (JObj error) "message")
       end.
Proof.
  destruct (perform_returns API_URL api call w) as (w' & Hrun & Hscreen).
  exists (client_result (api (request_of API_URL call))), w'.
  repeat split; trivial.
  - destruct (api (request_of API_URL call)) as [ response | error ]; simpl.
    + destruct (is_nullish response); [ right | left ]; eexists; reflexivity.
    + right. eexists. reflexivity.
  - destruct (api (request_of API_URL call)) as [ response | error ]; simpl.
    + now destruct (is_nullish response).
    + reflexivity.
Qed.

(** ** handleSearch *)

Section SearchFacts.

Lemma handleSearch_blank r w :
  trim (query r) = "" ->
  handleSearch r w = (Normal Finished, snd (setError (JStr validation_message) w)).
Proof. intros H. unfold handleSearch. now rewrite H. Qed.

Lemma handleSearch_submits r w :
  trim (query r) <> "" ->
  handleSearch r w
  = (Normal (Awaiting
               (SearchNews (JStr (query r)) (or_else (JStr (category r)) JNull)
                           (JStr (language r)) (JNum 20))
               handleSearch_resume),
     snd (setArticles (JArr []) (snd (setError (JStr "") (snd (setLoading true w)))))).
Proof.
  intros H. unfold handleSearch.
  apply truthy_JStr in H. now rewrite H.
Qed.

(** The [finally] block runs last on every path, and nothing escapes the
    [try] statement. *)
Lemma handleSearch_resume_settles settled w :
  exists w', handleSearch_resume settled w = (Normal tt, w')
             /\ loading (screen w') = false.
Proof.
  unfold handleSearch_resume, try_catch_finally.
  match goal with
  | |- context [ match ?body w with _ => _ end ] => destruct (body w) as [[ [] | e ] w1]
  end; simpl; eexists; split; reflexivity.
Qed.

(** The successful path, when [data.articles] is an array. *)
Lemma handleSearch_resume_articles data elems w :
  member data "articles" = JArr elems ->
  handleSearch_resume (Normal (success_result data)) w
  = (Normal tt,
     snd (setLoading false
            (snd ((if js_eqb (JNum (Z.of_nat (List.length elems))) (JNum 0)
                   then setError (JStr no_results_message) else ret tt)
                    (snd (setArticles (JArr elems) w)))))).
Proof.
  intros Harts.
  assert (Hdata : is_nullish data = false) by (now destruct data).
  unfold handleSearch_resume, try_catch_finally, bind, eval, success_result.
  simpl. rewrite (get_not_nullish _ _ Hdata), Harts. simpl.
  now destruct (Z.of_nat (List.length elems) =? 0).
Qed.


End SearchFacts.

(** C4. When the query is blank after trimming, [handleSearch] returns
    before any call: no request is issued, the error becomes the fixed
    validation message, and nothing else changes. *)
Theorem blank_query_sets_validation_error (r : State) (w : World) :
  trim (query r) = "" ->
  exists w',
    handleSearch r w = (Normal Finished, w')
    /\ issued_call (handleSearch r) w = None
    /\ error (screen w') = JStr "Please enter a search query"
    /\ same_but_error w w'.
Proof.
  intros H. exists (snd (setError (JStr validation_message) w)).
  unfold issued_call. rewrite (handleSearch_blank r w H).
  repeat split.
Qed.

Lemma blank_query_sets_validation_error_witness :
  exists w',
    handleSearch (Samples.typed "   " Samples.workspace)
                 (Samples.world_of (Samples.typed "   " Samples.workspace))
    = (Normal Finished, w')
    /\ issued_call (handleSearch (Samples.typed "   " Samples.workspace))
                   (Samples.world_of (Samples.typed "   " Samples.workspace))
       = None
    /\ error (screen w') = JStr "Please enter a search query"
    /\ same_but_error (Samples.world_of (Samples.typed "   " Samples.workspace)) w'.
Proof.
  apply (blank_query_sets_validation_error (Samples.typed "   " Samples.workspace)).
  reflexivity.
Defined.

(** C6. A submission that passes validation sets the loading flag and then
    issues the search call; whatever the awaited call settles to (a result
    with [success] true, one with [success] false, or an exception), the
    rest of the handler finishes without throwing and with the loading
    flag cleared. *)
Theorem loading_cleared_when_search_settles (r : State) (w : World) :
  trim (query r) <> "" ->
  exists call w1,
    handleSearch r w = (Normal (Awaiting call handleSearch_resume), w1)
    /\ loading (screen w1) = true
    /\ forall (settled : Completion JsVal) (w2 : World),
         exists w3,
           handleSearch_resume settled w2 = (Normal tt, w3)
           /\ loading (screen w3) = false.
Proof.
  intros H. rewrite (handleSearch_submits r w H).
  do 2 eexists. split; [ reflexivity | ]. split; [ reflexivity | ].
  intros settled w2. apply handleSearch_resume_settles.
Qed.

Lemma loading_cleared_when_search_settles_witness :
  exists call w1,
    handleSearch (Samples.typed "storm" Samples.workspace)
                 (Samples.world_of (Samples.typed "storm" Samples.workspace))
    = (Normal (Awaiting call handleSearch_resume), w1)
    /\ loading (screen w1) = true
    /\ forall (settled : Completion JsVal) (w2 : World),
         exists w3,
           handleSearch_resume settled w2 = (Normal tt, w3)
           /\ loading (screen w3) = false.
Proof.
  apply (loading_cleared_when_search_settles (Samples.typed "storm" Samples.workspace)).
  simpl. discriminate.
Defined.

Section SearchRuns.

Variable API_URL : string.

(** A search whose request is fulfilled with a response object. *)
Lemma search_to_completion_fulfilled response w :
  trim (query (screen w)) <> "" ->
  is_nullish response = false ->
  search_to_completion API_URL (fun _ => Fulfilled response) w
  = handleSearch_resume (Normal (success_result (member response "data")))
      (snd (setArticles (JArr [])
              (snd (setError (JStr "") (snd (setLoading true w)))))).
Proof.
  intros Hq Hresp. unfold search_to_completion.
  rewrite (handleSearch_submits _ w Hq).
  now rewrite (perform_fulfilled API_URL response _ _ Hresp).
Qed.

(** C7. When the search request is fulfilled and [data.articles] of the
    response is an array, the article list becomes that array, in the
    order received; with no article in it the error is the fixed
    no-results message, with one or more no error is set (it stays
    empty, as the submission left it). *)
Theorem search_success_shows_articles response elems w :
  trim (query (screen w)) <> "" ->
  member (member response "data") "articles" = JArr elems ->
  exists w',
    search_to_completion API_URL (fun _ => Fulfilled response) w = (Normal tt, w')
    /\ articles (screen w') = JArr elems
    /\ loading (screen w') = false
    /\ error (screen w')
       = match elems with
         | [] => JStr "No news articles found. Try a different search query."
         | _ :: _ => JStr ""
         end.
Proof.
  intros Hq Harts.
  assert (Hresp : is_nullish response = false) by (now destruct response).
  rewrite (search_to_completion_fulfilled response w Hq Hresp).
  rewrite (handleSearch_resume_articles _ elems _ Harts).
  eexists. split; [ reflexivity | ].
  destruct elems as [ | a elems ]; repeat split.
Qed.


End SearchRuns.

Lemma search_success_shows_articles_witness :
  exists w',
    search_to_completion Samples.backend
      (fun _ => Fulfilled (Samples.found [Samples.storm; Samples.market]))
      (Samples.world_of (Samples.typed "storm" Samples.workspace))
    = (Normal tt, w')
    /\ articles (screen w') = JArr [Samples.storm; Samples.market]
    /\ loading (screen w') = false
    /\ error (screen w') = JStr "".
Proof.
  apply (search_success_shows_articles Samples.backend
           (Samples.found [Samples.storm; Samples.market])
           [Samples.storm; Samples.market]
           (Samples.world_of (Samples.typed "storm" Samples.workspace))).
  - simpl. discriminate.
  - reflexivity.
Defined.


(** ** handleAddToWorkspace *)

Section AddFacts.

Lemma setIsAdding_returns m w : setIsAdding m w = (Normal tt, snd (setIsAdding m w)).
Proof. reflexivity. Qed.

Lemma setError_returns v w : setError v w = (Normal tt, snd (setError v w)).
Proof. reflexivity. Qed.

Lemma setSuccessMessage_returns m w :
  setSuccessMessage m w = (Normal tt, snd (setSuccessMessage m w)).
Proof. reflexivity. Qed.

Lemma articleKey_of_object props :
  articleKey_of (JObj props)
  = Normal (or_else (member (JObj props) "url") (member (JObj props) "title")).
Proof.
  unfold articleKey_of, or_else. rewrite !get_object.
  now destruct (truthy (member (JObj props) "url")).
Qed.

(** The argument object built for an article record. *)
Lemma articleData_object r props w :
  is_nullish (activeWorkspace r) = false ->
  let article := JObj props in
  articleData r article w
  = (Normal
       (JObj [("title", or_else (member article "title") (JStr ""));
              ("description", or_else (member article "description") (JStr ""));
              ("content",
               or_else (or_else (member article "content")
                                (member article "description"))
                       (JStr ""));
              ("url", or_else (member article "url") (JStr ""));
              ("source", or_else (member article "source") (JStr "Unknown"));
              ("publishedAt",
               or_else (member article "publishedAt") (JStr (now w)));
              ("workspace_name", member (activeWorkspace r) "name")]),
     w).
Proof.
  intros Hws article.
  unfold articleData, or_lazy, bind, eval, ret, Date_now_toISOString, or_else.
  subst article. rewrite !get_object, (get_not_nullish _ _ Hws).
  repeat match goal with
         | |- context [ truthy ?v ] =>
             lazymatch v with
             | member _ _ => destruct (truthy v) eqn:?
             end
         end; try reflexivity; simpl in *; congruence.
Qed.

Lemma handleAddToWorkspace_no_workspace r article w :
  truthy (activeWorkspace r) = false ->
  handleAddToWorkspace r article w
  = (Normal Finished,
     snd (setSuccessMessage "" (snd (setError (JStr no_workspace_message) w)))).
Proof. intros H. unfold handleAddToWorkspace. now rewrite H. Qed.

Lemma handleAddToWorkspace_issues r props w :
  truthy (activeWorkspace r) = true ->
  let article := JObj props in
  let articleKey := or_else (member article "url") (member article "title") in
  let w1 := snd (setSuccessMessage ""
                   (snd (setError (JStr "")
                           (snd (setIsAdding
                                   (<[ToString articleKey := true]> (isAdding r)) w)))))
  in
  exists data,
    articleData r article w1 = (Normal data, w1)
    /\ handleAddToWorkspace r article w
       = (Normal (Awaiting (AddNewsToWorkspace data)
                           (handleAddToWorkspace_resume r article articleKey)),
          w1).
Proof.
  intros Hws article articleKey w1.
  pose proof (articleData_object r props w1 (truthy_not_nullish _ Hws)) as Hdata.
  cbv zeta in Hdata. eexists. split; [ exact Hdata | ].
  unfold handleAddToWorkspace. rewrite Hws.
  change (negb true) with false. cbv iota.
  unfold bind at 1. unfold eval at 1.
  subst article. rewrite articleKey_of_object.
  fold articleKey.
  unfold bind, attempt. cbv beta.
  rewrite setIsAdding_returns. cbv beta iota.
  rewrite setError_returns. cbv beta iota.
  rewrite setSuccessMessage_returns. cbv beta iota.
  fold w1. rewrite Hdata. reflexivity.
Qed.

(** The rest of the handler once the call settled: the [finally] block
    writes the pending flag, and only the [response.success] branch
    writes the set of added identifiers. *)
Lemma handleAddToWorkspace_resume_settles r article articleKey settled w :
  exists w',
    handleAddToWorkspace_resume r article articleKey settled w = (Normal tt, w')
    /\ isAdding (screen w') = <[ToString articleKey := false]> (isAdding r)
    /\ addedArticles (screen w')
       = (if succeeded settled
          then Set_of (addedArticles r ++ [articleKey])%list
          else addedArticles (screen w)).
Proof.
  unfold handleAddToWorkspace_resume, handleAddToWorkspace_try,
    handleAddToWorkspace_settled, try_catch_finally, succeeded.
  destruct settled as [ response | e ]; simpl;
    [ | eexists; repeat split ].
  unfold bind, eval, get. destruct (is_nullish response); simpl;
    [ eexists; repeat split | ].
  destruct (truthy (member response "success")); simpl;
    [ | eexists; repeat split ].
  destruct (is_nullish article); simpl; [ eexists; repeat split | ].
  destruct (is_nullish (activeWorkspace r)); simpl; eexists; repeat split.
Qed.

End AddFacts.

(** C2, as the code has it. For an article record and an active
    workspace, the add action calls [addNewsToWorkspace] with exactly this
    object: [title], [description] and [url] are the article's when
    truthy and the empty string otherwise; [content] is the article's
    content when truthy, otherwise the article's description when that is
    truthy, otherwise the empty string; [source] is the article's when
    truthy and ["Unknown"] otherwise; [publishedAt] is the article's when
    truthy and the current timestamp otherwise; [workspace_name] is the
    name of the active workspace. A field that is missing, [null] or the
    empty string is not truthy, so each of these gets the default. *)
Theorem add_payload_defaults (r : State) (props : list (string * JsVal)) (w : World) :
  truthy (activeWorkspace r) = true ->
  let article := JObj props in
  exists data,
    issued_call (handleAddToWorkspace r article) w = Some (AddNewsToWorkspace data)
    /\ data
       = JObj [("title",
                if truthy (member article "title") then member article "title"
                else JStr "");
               ("description",
                if truthy (member article "description")
                then member article "description"
                else JStr "");
               ("content",
                if truthy (member article "content") then member article "content"
                else if truthy (member article "description")
                     then member article "description"
                     else JStr "");
               ("url",
                if truthy (member article "url") then member article "url"
                else JStr "");
               ("source",
                if truthy (member article "source") then member article "source"
                else JStr "Unknown");
               ("publishedAt",
                if truthy (member article "publishedAt")
                then member article "publishedAt"
                else JStr (now w));
               ("workspace_name", member (activeWorkspace r) "name")]
    /\ (forall k : string,
          lookup_prop k props = None
          \/ lookup_prop k props = Some JUndefined
          \/ lookup_prop k props = Some JNull
          \/ lookup_prop k props = Some (JStr "") ->
          truthy (member article k) = false)
    /\ (truthy (member article "title") = false -> member data "title" = JStr "")
    /\ (truthy (member article "description") = false ->
        member data "description" = JStr "")
    /\ (truthy (member article "url") = false -> member data "url" = JStr "")
    /\ (truthy (member article "content") = false ->
        member data "content"
        = if truthy (member article "description") then member article "description"
          else JStr "")
    /\ (truthy (member article "source") = false ->
        member data "source" = JStr "Unknown")
    /\ (truthy (member article "publishedAt") = false ->
        member data "publishedAt" = JStr (now w)).
Proof.
  intros Hws article.
  destruct (handleAddToWorkspace_issues r props w Hws) as (data & Hdata & Hrun).
  rewrite (articleData_object r props _ (truthy_not_nullish _ Hws)) in Hdata.
  cbv zeta in Hdata. injection Hdata as <-.
  assert (Hcontent :
            or_else (or_else (member article "content") (member article "description"))
                    (JStr "")
            = if truthy (member article "content") then member article "content"
              else if truthy (member article "description")
                   then member article "description"
                   else JStr "").
  { unfold or_else.
    destruct (truthy (member article "content")) eqn:Hc; [ now rewrite Hc | ].
    now destruct (truthy (member article "description")) eqn:Hd; rewrite ?Hd. }
  eexists. unfold issued_call. fold article in Hrun. rewrite Hrun.
  split; [ reflexivity | ].
  change (member article "content") with (default JUndefined (lookup_prop "content" props))
    in Hcontent.
  split.
  { unfold article in *. cbn [member] in *. rewrite Hcontent. reflexivity. }
  split.
  { intros k [H | [H | [H | H]]]; unfold article; simpl; now rewrite H. }
  unfold article in *. cbn [member] in *.
  repeat split; intros Hfalsy; cbn [lookup_prop String.eqb Ascii.eqb Bool.eqb default];
    rewrite ?Hcontent; unfold or_else; now rewrite Hfalsy.
Qed.

Lemma add_payload_defaults_witness :
  exists data,
    issued_call
      (handleAddToWorkspace (Samples.typed "rain" Samples.workspace)
         (JObj [("title", JNull); ("description", JStr "Heavy rain");
                ("url", JStr ""); ("source", JStr "Wire")]))
      (Samples.world_of (Samples.typed "rain" Samples.workspace))
    = Some (AddNewsToWorkspace data)
    /\ data
       = JObj [("title", JStr ""); ("description", JStr "Heavy rain");
               ("content", JStr "Heavy rain"); ("url", JStr "");
               ("source", JStr "Wire"); ("publishedAt", JStr Samples.clock);
               ("workspace_name", JStr "Research")].
Proof.
  destruct (add_payload_defaults (Samples.typed "rain" Samples.workspace)
              [("title", JNull); ("description", JStr "Heavy rain");
               ("url", JStr ""); ("source", JStr "Wire")]
              (Samples.world_of (Samples.typed "rain" Samples.workspace)) eq_refl)
    as (data & Hcall & Hdata & _).
  exists data. split; [ exact Hcall | exact Hdata ].
Defined.

(** C2 as stated fails: an article without [content] but with a
    description is sent with that description as its content, not with
    the empty string. *)
Lemma add_payload_content_is_description :
  lookup_prop "content" Samples.bare = None
  /\ exists data,
       issued_call (handleAddToWorkspace (Samples.typed "rain" Samples.workspace)
                                         (JObj Samples.bare))
                   (Samples.world_of (Samples.typed "rain" Samples.workspace))
       = Some (AddNewsToWorkspace data)
       /\ member data "content" = JStr "Heavy rain"
       /\ member data "content" <> JStr "".
Proof.
  split; [ reflexivity | ].
  eexists. split; [ reflexivity | ]. split; [ reflexivity | discriminate ].
Qed.

(** C5. For an article record and an active workspace: before the call
    the handler marks the identifier ([url], else [title]) pending and
    leaves the set of added identifiers alone; once the call has settled,
    the rest of the handler finishes with the identifier's pending flag
    [false] on every path, with the identifier in the set when the call
    returned success, and with the set as it found it otherwise. *)
Theorem added_only_after_success (r : State) (props : list (string * JsVal)) (w : World) :
  truthy (activeWorkspace r) = true ->
  let article := JObj props in
  let articleKey := or_else (member article "url") (member article "title") in
  exists data w1,
    handleAddToWorkspace r article w
    = (Normal (Awaiting (AddNewsToWorkspace data)
                        (handleAddToWorkspace_resume r article articleKey)),
       w1)
    /\ addedArticles (screen w1) = addedArticles (screen w)
    /\ isAdding (screen w1) !! ToString articleKey = Some true
    /\ forall (settled : Completion JsVal) (w2 : World),
         exists w3,
           handleAddToWorkspace_resume r article articleKey settled w2 = (Normal tt, w3)
           /\ isAdding (screen w3) !! ToString articleKey = Some false
           /\ (if succeeded settled
               then addedArticles (screen w3)
                    = Set_of (addedArticles r ++ [articleKey])%list
                    /\ Set_has (addedArticles (screen w3)) articleKey = true
               else addedArticles (screen w3) = addedArticles (screen w2)).
Proof.
  intros Hws article articleKey.
  destruct (handleAddToWorkspace_issues r props w Hws) as (data & _ & Hrun).
  cbv zeta in Hrun. fold article articleKey in Hrun.
  do 2 eexists. split; [ exact Hrun | ].
  split; [ reflexivity | ].
  split; [ simpl; apply lookup_insert_eq | ].
  intros settled w2.
  destruct (handleAddToWorkspace_resume_settles r article articleKey settled w2)
    as (w3 & Hres & Hflag & Hset).
  exists w3. split; [ exact Hres | ].
  split; [ rewrite Hflag; apply lookup_insert_eq | ].
  destruct (succeeded settled); [ | exact Hset ].
  split; [ exact Hset | rewrite Hset; apply Set_of_snoc_has ].
Qed.

(** C8. With no active workspace the add handler returns at its guard: no
    call is issued, the error is the fixed warning, the success message
    is empty, and nothing else (the set of added identifiers and the
    pending flags included) changes. *)
Theorem add_without_workspace_only_warns (r : State) (article : JsVal) (w : World) :
  truthy (activeWorkspace r) = false ->
  exists w',
    handleAddToWorkspace r article w = (Normal Finished, w')
    /\ issued_call (handleAddToWorkspace r article) w = None
    /\ error (screen w')
       = JStr "Please select a workspace first. Go to dashboard and select a workspace."
    /\ successMessage (screen w') = ""
    /\ same_but_messages w w'.
Proof.
  intros H. unfold issued_call.
  rewrite (handleAddToWorkspace_no_workspace r article w H).
  eexists. repeat split.
Qed.

Lemma add_without_workspace_only_warns_witness :
  exists w',
    handleAddToWorkspace (Samples.typed "storm" JNull) Samples.storm
                         (Samples.world_of (Samples.typed "storm" JNull))
    = (Normal Finished, w')
    /\ issued_call (handleAddToWorkspace (Samples.typed "storm" JNull) Samples.storm)
                   (Samples.world_of (Samples.typed "storm" JNull))
       = None
    /\ error (screen w')
       = JStr "Please select a workspace first. Go to dashboard and select a workspace."
    /\ successMessage (screen w') = ""
    /\ same_but_messages (Samples.world_of (Samples.typed "storm" JNull)) w'.
Proof.
  apply (add_without_workspace_only_warns (Samples.typed "storm" JNull) Samples.storm).
  reflexivity.
Defined.

Lemma added_only_after_success_witness :
  exists data w1,
    handleAddToWorkspace (Samples.typed "storm" Samples.workspace) Samples.storm
                         (Samples.world_of (Samples.typed "storm" Samples.workspace))
    = (Normal (Awaiting (AddNewsToWorkspace data)
                        (handleAddToWorkspace_resume
                           (Samples.typed "storm" Samples.workspace) Samples.storm
                           (JStr "https://a"))),
       w1)
    /\ addedArticles (screen w1) = []
    /\ isAdding (screen w1) !! "https://a" = Some true
    /\ forall (settled : Completion JsVal) (w2 : World),
         exists w3,
           handleAddToWorkspace_resume (Samples.typed "storm" Samples.workspace)
             Samples.storm (JStr "https://a") settled w2
           = (Normal tt, w3)
           /\ isAdding (screen w3) !! "https://a" = Some false
           /\ (if succeeded settled
               then addedArticles (screen w3) = Set_of ([] ++ [JStr "https://a"])%list
                    /\ Set_has (addedArticles (screen w3)) (JStr "https://a") = true
               else addedArticles (screen w3) = addedArticles (screen w2)).
Proof.
  apply (added_only_after_success (Samples.typed "storm" Samples.workspace)
           [("title", JStr "Storm warning"); ("description", JStr "Heavy rain");
            ("url", JStr "https://a"); ("source", JStr "Wire")]
           (Samples.world_of (Samples.typed "storm" Samples.workspace))).
  reflexivity.
Defined.

(** ** The two messages *)

Section MessageFacts.

(** [handleSearch] never writes the success message, before or after
    its call. *)
Lemma handleSearch_keeps_successMessage r w :
  successMessage (screen (snd (handleSearch r w))) = successMessage (screen w).
Proof.
  unfold handleSearch. now destruct (negb (truthy (JStr (trim (query r))))).
Qed.

Lemma handleSearch_resume_keeps_successMessage settled w :
  successMessage (screen (snd (handleSearch_resume settled w)))
  = successMessage (screen w).
Proof.
  unfold handleSearch_resume, try_catch_finally, bind, eval, get.
  destruct settled as [ response | e ]; [ | reflexivity ].
  repeat match goal with
         | |- context [ if ?b then _ else _ ] => destruct b
         end; reflexivity.
Qed.

(** Every path of [handleAddToWorkspace] that sets one message clears
    the other. *)
Lemma handleAddToWorkspace_messages_exclusive r props w :
  let w' := snd (handleAddToWorkspace r (JObj props) w) in
  truthy (error (screen w')) = false \/ successMessage (screen w') = "".
Proof.
  destruct (truthy (activeWorkspace r)) eqn:Hws.
  - destruct (handleAddToWorkspace_issues r props w Hws) as (data & _ & Hrun).
    cbv zeta in Hrun. cbv zeta. rewrite Hrun. now left.
  - cbv zeta. rewrite (handleAddToWorkspace_no_workspace r _ w Hws). now right.
Qed.

Lemma handleAddToWorkspace_resume_messages_exclusive r article articleKey settled w :
  let w' := snd (handleAddToWorkspace_resume r article articleKey settled w) in
  truthy (error (screen w')) = false \/ successMessage (screen w') = "".
Proof.
  unfold handleAddToWorkspace_resume, handleAddToWorkspace_try,
    handleAddToWorkspace_settled, try_catch_finally.
  destruct settled as [ response | e ]; simpl; [ | now right ].
  unfold bind, eval, get. destruct (is_nullish response); simpl; [ now right | ].
  destruct (truthy (member response "success")); simpl; [ | now right ].
  destruct (is_nullish article); simpl; [ now right | ].
  destruct (is_nullish (activeWorkspace r)); simpl; [ now right | now left ].
Qed.

End MessageFacts.

(** C1. A reachable configuration shows the error and the success
    message together, the one the events of [Samples.search_during_add]
    lead to: an add action succeeds while a search is in flight and sets
    the success message; the search then comes back empty and sets its
    error without clearing that message. *)
Theorem search_error_beside_success_message :
  exists c,
    reachable Samples.backend (Some Samples.workspace) Samples.clock c
    /\ c = run Samples.backend (mounted (Some Samples.workspace) Samples.clock)
              Samples.search_during_add
    /\ error (screen (world c))
       = JStr "No news articles found. Try a different search query."
    /\ successMessage (screen (world c))
       = dquote ++ "Storm warning" ++ dquote ++ " added to Research workspace!"
    /\ truthy (error (screen (world c))) = true
    /\ successMessage (screen (world c)) <> "".
Proof.
  eexists. split; [ exists Samples.search_during_add; reflexivity | ].
  split; [ reflexivity | ].
  vm_compute. repeat split. discriminate.
Qed.

(** ** The add button *)

Section ButtonFacts.

Variable API_URL : string.

(** In any state, the add button of an article whose identifier is in
    the set of added identifiers is disabled, and a click on it does
    nothing. *)
Lemma added_article_button_disabled s article articleKey :
  articleKey_of article = Normal articleKey ->
  Set_has (addedArticles s) articleKey = true ->
  addButton_disabled s article = Normal true.
Proof.
  intros Hkey Hhas. unfold addButton_disabled. now rewrite Hkey, Hhas.
Qed.

Lemma click_on_added_article_ignored c index article articleKey :
  rendered_article (screen (world c)) index = Some article ->
  articleKey_of article = Normal articleKey ->
  Set_has (addedArticles (screen (world c))) articleKey = true ->
  forall n, run API_URL c (repeat (ClickAdd index) n) = c.
Proof.
  intros Hart Hkey Hhas n.
  assert (Hstep : step API_URL c (ClickAdd index) = c).
  { unfold step. rewrite Hart.
    now rewrite (added_article_button_disabled _ _ _ Hkey Hhas). }
  induction n as [ | n IHn ]; [ reflexivity | ].
  unfold run in *. cbn [repeat fold_left]. now rewrite Hstep.
Qed.

(** An add action that runs from click to settlement with no other add
    settling in between only adds to the set. *)
Lemma add_to_completion_keeps_added api article w v :
  Set_has (addedArticles (screen w)) v = true ->
  Set_has (addedArticles (screen (snd (add_to_completion API_URL api article w)))) v
  = true.
Proof.
  intros Hv. unfold add_to_completion, handleAddToWorkspace.
  destruct (negb (truthy (activeWorkspace (screen w)))); [ exact Hv | ].
  unfold bind at 1, eval at 1.
  destruct (articleKey_of article) as [ articleKey | e ]; [ | exact Hv ].
  unfold bind. rewrite setIsAdding_returns. cbv beta iota.
  rewrite setError_returns. cbv beta iota.
  rewrite setSuccessMessage_returns. cbv beta iota.
  unfold attempt.
  destruct (articleData (screen w) article _) as [[ data | e ] w1] eqn:Hdata.
  - assert (Hw1 : addedArticles (screen w1) = addedArticles (screen w)).
    { revert Hdata. unfold articleData, or_lazy, bind, eval, ret, Date_now_toISOString.
      repeat match goal with
             | |- context [ get ?a ?k ] => destruct (get a k)
             | |- context [ truthy ?x ] => destruct (truthy x)
             end; intros [= <- <-] || intros [=]; reflexivity. }
    cbv beta iota. unfold ret.
    destruct (perform_returns API_URL api (AddNewsToWorkspace data) w1)
      as (w2 & Hrun & Hscreen).
    rewrite Hrun.
    destruct (handleAddToWorkspace_resume_settles (screen w) article articleKey
                (Normal (client_result
                           (api (request_of API_URL (AddNewsToWorkspace data))))) w2)
      as (w3 & Hres & _ & Hset).
    rewrite Hres. simpl snd. rewrite Hset.
    destruct (succeeded _).
    + now apply Set_of_snoc_keeps.
    + now rewrite Hscreen, Hw1.
  - cbv beta iota.
    assert (Hw1 : addedArticles (screen w1) = addedArticles (screen w)).
    { revert Hdata. unfold articleData, or_lazy, bind, eval, ret, Date_now_toISOString.
      repeat match goal with
             | |- context [ get ?a ?k ] => destruct (get a k)
             | |- context [ truthy ?x ] => destruct (truthy x)
             end; intros [= <- <-] || intros [=]; reflexivity. }
    unfold handleAddToWorkspace_try, try_catch_finally, throw, bind, ret. simpl.
    now rewrite Hw1.
Qed.

End ButtonFacts.

(** C9. The add action of an article that was added does not stay
    disabled when two add calls overlap. After the events of
    [Samples.second_add_settles_first] the second article is in the set
    of added identifiers and its button is disabled; when the first call
    then succeeds, the rest of its handler (the closure of the render
    before either click, whose set was empty) replaces the set, the second
    article is no longer in it, its button is enabled, and a click on it
    sends the article to the backend again. *)
Theorem overlapping_adds_reenable_added_article :
  let c0 := mounted (Some Samples.workspace) Samples.clock in
  let c1 := run Samples.backend c0 Samples.second_add_settles_first in
  let c2 := run Samples.backend c0 Samples.both_adds_settled in
  articleKey_of Samples.market = Normal (JStr "https://b")
  /\ rendered_article (screen (world c2)) 1 = Some Samples.market
  /\ Set_has (addedArticles (screen (world c1))) (JStr "https://b") = true
  /\ addButton_disabled (screen (world c1)) Samples.market = Normal true
  /\ Set_has (addedArticles (screen (world c2))) (JStr "https://b") = false
  /\ addButton_disabled (screen (world c2)) Samples.market = Normal false
  /\ pending c2 = []
  /\ map fst (pending (step Samples.backend c2 (ClickAdd 1)))
     = [AddNewsToWorkspace
          (JObj [("title", JStr "Market update"); ("description", JStr "");
                 ("content", JStr ""); ("url", JStr "https://b");
                 ("source", JStr "Unknown"); ("publishedAt", JStr Samples.clock);
                 ("workspace_name", JStr "Research")])].
Proof. vm_compute. repeat split. Qed.

(** * Further properties *)

(** ** The client, seen from a handler *)

Section ClientEffects.

Variable API_URL : string.

Lemma perform_rejected error (call : ClientCall) (w : World) :
  perform API_URL (fun _ => Rejected error) call w
  = (Normal (failure_result (reported_error (JObj error))),
     logged [(failure_label call, JObj error)] w).
Proof.
  destruct call as [ q c l n | | d ]; simpl;
    unfold searchNews, getNewsCategories, addNewsToWorkspace, try_catch;
    unfold bind at 1; simpl;
    now rewrite catch_block_reports.
Qed.

Lemma perform_fulfilled_nullish response (call : ClientCall) (w : World) :
  is_nullish response = true ->
  perform API_URL (fun _ => Fulfilled response) call w
  = (Normal (failure_result (reported_error (type_error response "data"))),
     logged [(failure_label call, type_error response "data")] w).
Proof.
  intros H.
  destruct call as [ q c l n | | d ]; simpl;
    unfold searchNews, getNewsCategories, addNewsToWorkspace, try_catch;
    unfold bind at 1; simpl; unfold bind at 1, eval at 1, get at 1; rewrite H;
    now rewrite catch_block_reports.
Qed.

End ClientEffects.

(** X1. A client operation never touches the component state or the
    timers, and it writes to the console exactly when it returns a
    failure: nothing when the request is fulfilled with a response
    object, one entry (the operation's label and the error) otherwise. *)
Theorem client_logs_exactly_failures
    (API_URL : string) (api : Request -> Outcome) (call : ClientCall) (w : World) :
  exists result,
    perform API_URL api call w
    = (Normal result,
       match api (request_of API_URL call) with
       | Fulfilled response =>
           if is_nullish response
           then logged [(failure_label call, type_error response "data")] w
           else w
       | Rejected error => logged [(failure_label call, JObj error)] w
       end)
    /\ member result "success"
       = JBool (match api (request_of API_URL call) with
                | Fulfilled response => negb (is_nullish response)
                | Rejected _ => false
                end).
Proof.
  assert (Hconst : perform API_URL api call w
                   = perform API_URL (fun _ => api (request_of API_URL call)) call w)
    by (now destruct call).
  rewrite Hconst.
  destruct (api (request_of API_URL call)) as [ response | error ].
  - destruct (is_nullish response) eqn:Hn.
    + rewrite (perform_fulfilled_nullish API_URL response call w Hn).
      eexists. split; reflexivity.
    + rewrite (perform_fulfilled API_URL response call w Hn).
      eexists. split; reflexivity.
  - rewrite perform_rejected. eexists. split; reflexivity.
Qed.

(** ** Searching *)

Section SearchEffects.

Variable API_URL : string.

Lemma perform_logs api (call : ClientCall) (w : World) :
  exists result log, perform API_URL api call w = (Normal result, logged log w).
Proof.
  assert (Hconst : perform API_URL api call w
                   = perform API_URL (fun _ => api (request_of API_URL call)) call w)
    by (now destruct call).
  rewrite Hconst.
  destruct (api (request_of API_URL call)) as [ response | error ].
  - destruct (is_nullish response) eqn:Hn.
    + rewrite (perform_fulfilled_nullish API_URL response call w Hn).
      do 2 eexists. reflexivity.
    + rewrite (perform_fulfilled API_URL response call w Hn).
      exists (success_result (member response "data")), [].
      unfold logged. rewrite app_nil_r. now destruct w.
  - rewrite perform_rejected. do 2 eexists. reflexivity.
Qed.

Lemma handleSearch_resume_failure err w :
  handleSearch_resume (Normal (failure_result err)) w
  = (Normal tt,
     snd (setLoading false
            (snd (setError (or_else (get_opt err "message")
                                    (JStr search_failed_message)) w)))).
Proof. reflexivity. Qed.

Lemma handleSearch_resume_leaves_alone settled w :
  search_leaves_alone w (snd (handleSearch_resume settled w)).
Proof.
  unfold handleSearch_resume, try_catch_finally, bind, eval, get.
  destruct settled as [ response | e ]; [ | repeat split ].
  repeat match goal with
         | |- context [ if ?b then _ else _ ] => destruct b
         end; repeat split.
Qed.

Lemma search_to_completion_rejected error w :
  trim (query (screen w)) <> "" ->
  search_to_completion API_URL (fun _ => Rejected error) w
  = handleSearch_resume (Normal (failure_result (reported_error (JObj error))))
      (logged [("Error fetching news:", JObj error)]
         (snd (setArticles (JArr [])
                 (snd (setError (JStr "") (snd (setLoading true w))))))).
Proof.
  intros Hq. unfold search_to_completion.
  rewrite (handleSearch_submits _ w Hq).
  now rewrite perform_rejected.
Qed.

Lemma or_else_fallback_truthy v fallback :
  truthy fallback = true -> truthy (or_else v fallback) = true.
Proof. intros H. unfold or_else. now destruct (truthy v) eqn:Hv. Qed.

End SearchEffects.

(** X2. A submission that passes validation sends one [POST] to
    [/news/search] whose body carries the query as typed (not trimmed),
    [null] for the category when none is chosen and the chosen category
    otherwise, the language, and the page size 20. *)
Theorem search_request_sent (API_URL : string) (r : State) (w : World) :
  trim (query r) <> "" ->
  exists call,
    issued_call (handleSearch r) w = Some call
    /\ request_of API_URL call
       = {| method := "POST";
            url := API_URL ++ "/news/search";
            body := JObj [("query", JStr (query r));
                          ("category",
                           if String.eqb (category r) "" then JNull
                           else JStr (category r));
                          ("language", JStr (language r));
                          ("page_size", JNum 20)] |}.
Proof.
  intros Hq. unfold issued_call. rewrite (handleSearch_submits r w Hq).
  eexists. split; [ reflexivity | ].
  simpl. unfold or_else. simpl. now destruct (String.eqb (category r) "").
Qed.

Lemma search_request_sent_witness :
  exists call,
    issued_call (handleSearch (Samples.typed " storm " Samples.workspace))
                (Samples.world_of (Samples.typed " storm " Samples.workspace))
    = Some call
    /\ request_of Samples.backend call
       = {| method := "POST";
            url := "http://localhost:8000/news/search";
            body := JObj [("query", JStr " storm "); ("category", JNull);
                          ("language", JStr "en"); ("page_size", JNum 20)] |}.
Proof.
  apply (search_request_sent Samples.backend
           (Samples.typed " storm " Samples.workspace)).
  simpl. discriminate.
Defined.

(** X3. When the search request is rejected, the handler finishes without
    throwing, the article list is empty, the loading flag is cleared, and
    the error shown is the [message] of what the client reports (the
    server's payload, or the transport's message) when that is truthy and
    ["Failed to fetch news articles"] otherwise; it is never empty. *)
Theorem failed_search_shows_error (API_URL : string) error (w : World) :
  trim (query (screen w)) <> "" ->
  exists w',
    search_to_completion API_URL (fun _ => Rejected error) w = (Normal tt, w')
    /\ articles (screen w') = JArr []
    /\ loading (screen w') = false
    /\ Runtime.error (screen w')
       = or_else (get_opt (reported_error (JObj error)) "message")
                 (JStr "Failed to fetch news articles")
    /\ truthy (Runtime.error (screen w')) = true.
Proof.
  intros Hq.
  rewrite (search_to_completion_rejected API_URL error w Hq).
  rewrite handleSearch_resume_failure.
  eexists. split; [ reflexivity | ].
  repeat split. simpl. now apply or_else_fallback_truthy.
Qed.

Lemma failed_search_shows_error_witness :
  exists w',
    search_to_completion Samples.backend
      (fun _ => Rejected [("response",
                           JObj [("status", JNum 429);
                                 ("data", JObj [("message", JStr "Too many requests")])])])
      (Samples.world_of (Samples.typed "storm" Samples.workspace))
    = (Normal tt, w')
    /\ articles (screen w') = JArr []
    /\ loading (screen w') = false
    /\ Runtime.error (screen w') = JStr "Too many requests"
    /\ truthy (Runtime.error (screen w')) = true.
Proof.
  apply (failed_search_shows_error Samples.backend
           [("response",
             JObj [("status", JNum 429);
                   ("data", JObj [("message", JStr "Too many requests")])])]
           (Samples.world_of (Samples.typed "storm" Samples.workspace))).
  simpl. discriminate.
Defined.

(** X4. When the search request is rejected without a response (a
    network failure, a timeout) and the error's message is a string, the
    error shown is the fixed ["Failed to fetch news articles"]: the
    transport's own message is never shown. *)
Theorem transport_failure_shows_fallback
    (API_URL : string) error (m : string) (w : World) :
  trim (query (screen w)) <> "" ->
  truthy (member (JObj error) "response") = false ->
  member (JObj error) "message" = JStr m ->
  exists w',
    search_to_completion API_URL (fun _ => Rejected error) w = (Normal tt, w')
    /\ Runtime.error (screen w') = JStr "Failed to fetch news articles".
Proof.
  intros Hq Hresp Hmsg.
  rewrite (search_to_completion_rejected API_URL error w Hq).
  rewrite handleSearch_resume_failure.
  eexists. split; [ reflexivity | ].
  simpl. unfold reported_error. rewrite Hresp, Hmsg. reflexivity.
Qed.

Lemma transport_failure_shows_fallback_witness :
  exists w',
    search_to_completion Samples.backend
      (fun _ => Rejected [("message", JStr "Network Error")])
      (Samples.world_of (Samples.typed "storm" Samples.workspace))
    = (Normal tt, w')
    /\ Runtime.error (screen w') = JStr "Failed to fetch news articles".
Proof.
  apply (transport_failure_shows_fallback Samples.backend
           [("message", JStr "Network Error")] "Network Error"
           (Samples.world_of (Samples.typed "storm" Samples.workspace))).
  - simpl. discriminate.
  - reflexivity.
  - reflexivity.
Defined.

(** X5. A search, from submission to settlement and whatever the request
    layer answers, leaves alone the query and the filters, the category
    list, the set of added identifiers, the pending flags, the active
    workspace, the success message and the timers: an article marked as
    added stays marked when a new search brings it back. *)
Theorem search_leaves_added_articles_alone
    (API_URL : string) (api : Request -> Outcome) (w : World) :
  search_leaves_alone w (snd (search_to_completion API_URL api w)).
Proof.
  unfold search_to_completion.
  destruct (String.eqb_spec (trim (query (screen w))) "") as [Hq | Hq].
  - rewrite (handleSearch_blank _ w Hq). repeat split.
  - rewrite (handleSearch_submits _ w Hq).
    match goal with
    | |- context [ perform API_URL api ?call ?w1 ] =>
        destruct (perform_logs API_URL api call w1) as (result & log & Hrun);
        rewrite Hrun
    end.
    match goal with
    | |- context [ handleSearch_resume ?settled ?w2 ] =>
        pose proof (handleSearch_resume_leaves_alone settled w2) as Hframe
    end.
    unfold search_leaves_alone in *. simpl in Hframe. exact Hframe.
Qed.

(** ** Adding an article *)

Section AddEffects.

Variable API_URL : string.

(** The world in which the call of an add action is issued. *)
Lemma add_to_completion_object api props w :
  truthy (activeWorkspace (screen w)) = true ->
  let article := JObj props in
  let articleKey := or_else (member article "url") (member article "title") in
  let w1 := snd (setSuccessMessage ""
                   (snd (setError (JStr "")
                           (snd (setIsAdding
                                   (<[ToString articleKey := true]>
                                      (isAdding (screen w))) w))))) in
  exists data,
    add_to_completion API_URL api article w
    = (let (settled, w2) := perform API_URL api (AddNewsToWorkspace data) w1 in
       handleAddToWorkspace_resume (screen w) article articleKey settled w2).
Proof.
  intros Hws article articleKey w1.
  destruct (handleAddToWorkspace_issues (screen w) props w Hws) as (data & _ & Hrun).
  cbv zeta in Hrun. exists data. unfold add_to_completion.
  fold article articleKey in Hrun. now rewrite Hrun.
Qed.

Lemma handleAddToWorkspace_resume_success r props articleKey data w :
  is_nullish (activeWorkspace r) = false ->
  handleAddToWorkspace_resume r (JObj props) articleKey (Normal (success_result data)) w
  = (Normal tt,
     snd (setIsAdding (<[ToString articleKey := false]> (isAdding r))
            (snd (setTimeout_clearSuccess 3000
                    (snd (setError (JStr "")
                            (snd (setSuccessMessage
                                    (dquote ++ ToString (member (JObj props) "title")
                                     ++ dquote ++ " added to "
                                     ++ ToString (member (activeWorkspace r) "name")
                                     ++ " workspace!")
                                    (snd (setAddedArticles
                                            (Set_of (addedArticles r ++ [articleKey])%list)
                                            w)))))))))).
Proof.
  intros Hws.
  unfold handleAddToWorkspace_resume, handleAddToWorkspace_try,
    handleAddToWorkspace_settled, try_catch_finally, bind, eval, success_result.
  simpl. unfold get. now rewrite Hws.
Qed.

Lemma handleAddToWorkspace_resume_failure r article articleKey err w :
  handleAddToWorkspace_resume r article articleKey (Normal (failure_result err)) w
  = (Normal tt,
     snd (setIsAdding (<[ToString articleKey := false]> (isAdding r))
            (snd (setSuccessMessage ""
                    (snd (setError (or_else (get_opt err "message")
                                            (JStr add_failed_message)) w)))))).
Proof. reflexivity. Qed.

Lemma handleAddToWorkspace_resume_leaves_alone r article articleKey settled w :
  add_leaves_alone w (snd (handleAddToWorkspace_resume r article articleKey settled w)).
Proof.
  unfold handleAddToWorkspace_resume, handleAddToWorkspace_try,
    handleAddToWorkspace_settled, try_catch_finally, bind, eval, get.
  destruct settled as [ response | e ]; [ | repeat split ].
  repeat match goal with
         | |- context [ if ?b then _ else _ ] => destruct b
         end; repeat split.
Qed.

(** Building the argument object writes nothing. *)
Lemma articleData_writes_nothing r article w :
  snd (articleData r article w) = w.
Proof.
  unfold articleData, or_lazy, bind, eval, ret, Date_now_toISOString, get.
  repeat match goal with
         | |- context [ if ?b then _ else _ ] => destruct b
         end; reflexivity.
Qed.

End AddEffects.

(** X6. With an active workspace, an add action whose request is
    fulfilled with a response object (whatever its body says) finishes
    with the success message naming the article's title and the
    workspace, the error cleared, the identifier in the set of added
    identifiers, its pending flag cleared, one timer of 3000 scheduled to
    clear the message, and the article's button disabled. *)
Theorem fulfilled_add_marks_article
    (API_URL : string) response (props : list (string * JsVal)) (w : World) :
  truthy (activeWorkspace (screen w)) = true ->
  is_nullish response = false ->
  let article := JObj props in
  let articleKey := or_else (member article "url") (member article "title") in
  exists w',
    add_to_completion API_URL (fun _ => Fulfilled response) article w = (Normal tt, w')
    /\ successMessage (screen w')
       = dquote ++ ToString (member article "title") ++ dquote ++ " added to "
         ++ ToString (member (activeWorkspace (screen w)) "name") ++ " workspace!"
    /\ error (screen w') = JStr ""
    /\ addedArticles (screen w')
       = Set_of (addedArticles (screen w) ++ [articleKey])%list
    /\ isAdding (screen w') !! ToString articleKey = Some false
    /\ timers w' = (timers w ++ [3000])%list
    /\ addButton_disabled (screen w') article = Normal true.
Proof.
  intros Hws Hresp article articleKey.
  destruct (add_to_completion_object API_URL (fun _ => Fulfilled response) props w Hws)
    as (data & Hrun).
  cbv zeta in Hrun. fold article articleKey in Hrun. rewrite Hrun.
  rewrite (perform_fulfilled API_URL response _ _ Hresp).
  unfold article.
  rewrite (handleAddToWorkspace_resume_success _ props articleKey _ _
             (truthy_not_nullish _ Hws)).
  eexists. split; [ reflexivity | ].
  repeat split.
  - simpl. apply lookup_insert_eq.
  - apply (added_article_button_disabled _ _ articleKey).
    + apply articleKey_of_object.
    + simpl. apply Set_of_snoc_has.
Qed.

Lemma fulfilled_add_marks_article_witness :
  exists w',
    add_to_completion Samples.backend (fun _ => Fulfilled Samples.stored) Samples.storm
      (Samples.world_of (Samples.typed "storm" Samples.workspace))
    = (Normal tt, w')
    /\ successMessage (screen w')
       = dquote ++ "Storm warning" ++ dquote ++ " added to Research workspace!"
    /\ error (screen w') = JStr ""
    /\ addedArticles (screen w') = [JStr "https://a"]
    /\ isAdding (screen w') !! "https://a" = Some false
    /\ timers w' = [3000]
    /\ addButton_disabled (screen w') Samples.storm = Normal true.
Proof.
  apply (fulfilled_add_marks_article Samples.backend Samples.stored
           [("title", JStr "Storm warning"); ("description", JStr "Heavy rain");
            ("url", JStr "https://a"); ("source", JStr "Wire")]
           (Samples.world_of (Samples.typed "storm" Samples.workspace))).
  - reflexivity.
  - reflexivity.
Defined.

(** X7. With an active workspace, an add action whose request is
    rejected finishes with a non-empty error (the [message] of what the
    client reports when truthy, ["Failed to add article to workspace"]
    otherwise), no success message, no timer scheduled, the set of added
    identifiers as before and the pending flag cleared; the article's
    button is enabled again unless the identifier was already in the
    set. *)
Theorem rejected_add_can_be_retried
    (API_URL : string) error (props : list (string * JsVal)) (w : World) :
  truthy (activeWorkspace (screen w)) = true ->
  let article := JObj props in
  let articleKey := or_else (member article "url") (member article "title") in
  exists w',
    add_to_completion API_URL (fun _ => Rejected error) article w = (Normal tt, w')
    /\ Runtime.error (screen w')
       = or_else (get_opt (reported_error (JObj error)) "message")
                 (JStr "Failed to add article to workspace")
    /\ truthy (Runtime.error (screen w')) = true
    /\ successMessage (screen w') = ""
    /\ timers w' = timers w
    /\ addedArticles (screen w') = addedArticles (screen w)
    /\ isAdding (screen w') !! ToString articleKey = Some false
    /\ addButton_disabled (screen w') article
       = Normal (Set_has (addedArticles (screen w)) articleKey).
Proof.
  intros Hws article articleKey.
  destruct (add_to_completion_object API_URL (fun _ => Rejected error) props w Hws)
    as (data & Hrun).
  cbv zeta in Hrun. fold article articleKey in Hrun. rewrite Hrun.
  rewrite perform_rejected, handleAddToWorkspace_resume_failure.
  eexists. split; [ reflexivity | ].
  repeat split.
  - simpl. now apply or_else_fallback_truthy.
  - simpl. apply lookup_insert_eq.
  - unfold addButton_disabled, article. rewrite articleKey_of_object.
    fold article articleKey. simpl.
    unfold isAdding_flag. rewrite lookup_insert_eq, Hws. simpl.
    now rewrite !orb_false_r.
Qed.

Lemma rejected_add_can_be_retried_witness :
  exists w',
    add_to_completion Samples.backend
      (fun _ => Rejected [("response",
                           JObj [("status", JNum 409);
                                 ("data", JObj [("message", JStr "duplicate entry")])])])
      Samples.storm
      (Samples.world_of (Samples.typed "storm" Samples.workspace))
    = (Normal tt, w')
    /\ Runtime.error (screen w') = JStr "duplicate entry"
    /\ truthy (Runtime.error (screen w')) = true
    /\ successMessage (screen w') = ""
    /\ timers w' = []
    /\ addedArticles (screen w') = []
    /\ isAdding (screen w') !! "https://a" = Some false
    /\ addButton_disabled (screen w') Samples.storm = Normal false.
Proof.
  apply (rejected_add_can_be_retried Samples.backend
           [("response",
             JObj [("status", JNum 409);
                   ("data", JObj [("message", JStr "duplicate entry")])])]
           [("title", JStr "Storm warning"); ("description", JStr "Heavy rain");
            ("url", JStr "https://a"); ("source", JStr "Wire")]
           (Samples.world_of (Samples.typed "storm" Samples.workspace))).
  reflexivity.
Defined.

(** X8. With an active workspace, an add action run from click to
    settlement leaves the pending flag of its own identifier [false],
    whatever the request layer answers, and the flag of every other
    identifier as it was. *)
Theorem add_settles_own_flag_only
    (API_URL : string) (api : Request -> Outcome)
    (props : list (string * JsVal)) (w : World) :
  truthy (activeWorkspace (screen w)) = true ->
  let article := JObj props in
  let articleKey := or_else (member article "url") (member article "title") in
  let w' := snd (add_to_completion API_URL api article w) in
  isAdding (screen w') !! ToString articleKey = Some false
  /\ forall other : string,
       other <> ToString articleKey ->
       isAdding (screen w') !! other = isAdding (screen w) !! other.
Proof.
  intros Hws article articleKey w'. subst w'.
  destruct (add_to_completion_object API_URL api props w Hws) as (data & Hrun).
  cbv zeta in Hrun. fold article articleKey in Hrun. rewrite Hrun.
  match goal with
  | |- context [ perform API_URL api ?call ?w1 ] =>
      destruct (perform API_URL api call w1) as [settled w2]
  end.
  destruct (handleAddToWorkspace_resume_settles (screen w) article articleKey settled w2)
    as (w3 & Hres & Hflag & _).
  rewrite Hres. simpl snd. rewrite Hflag. split.
  - apply lookup_insert_eq.
  - intros other Hother. now apply lookup_insert_ne.
Qed.

Lemma add_settles_own_flag_only_witness :
  let w := Samples.world_of (Samples.typed "storm" Samples.workspace) in
  let w' := snd (add_to_completion Samples.backend
                   (fun _ => Rejected [("message", JStr "Network Error")])
                   Samples.storm w) in
  isAdding (screen w') !! "https://a" = Some false
  /\ forall other : string,
       other <> "https://a" ->
       isAdding (screen w') !! other = isAdding (screen w) !! other.
Proof.
  apply (add_settles_own_flag_only Samples.backend
           (fun _ => Rejected [("message", JStr "Network Error")])
           [("title", JStr "Storm warning"); ("description", JStr "Heavy rain");
            ("url", JStr "https://a"); ("source", JStr "Wire")]
           (Samples.world_of (Samples.typed "storm" Samples.workspace))).
  reflexivity.
Defined.

(** X9. An add action, for any article value and whatever the request
    layer answers, leaves alone the query and the filters, the article
    list, the loading flag, the category list and the active workspace. *)
Theorem add_leaves_results_alone
    (API_URL : string) (api : Request -> Outcome) (article : JsVal) (w : World) :
  add_leaves_alone w (snd (add_to_completion API_URL api article w)).
Proof.
  unfold add_to_completion, handleAddToWorkspace.
  destruct (negb (truthy (activeWorkspace (screen w)))); [ repeat split | ].
  unfold bind at 1, eval at 1.
  destruct (articleKey_of article) as [ articleKey | e ]; [ | repeat split ].
  unfold bind. rewrite setIsAdding_returns. cbv beta iota.
  rewrite setError_returns. cbv beta iota.
  rewrite setSuccessMessage_returns. cbv beta iota.
  unfold attempt.
  match goal with
  | |- context [ articleData ?r ?a ?w1 ] =>
      pose proof (articleData_writes_nothing r a w1) as Hsame;
      destruct (articleData r a w1) as [[ data | e ] w1'];
      simpl in Hsame; subst w1'
  end; cbv beta iota.
  - unfold ret.
    match goal with
    | |- context [ perform API_URL api ?call ?w1 ] =>
        destruct (perform_logs API_URL api call w1) as (result & log & Hrun);
        rewrite Hrun
    end.
    match goal with
    | |- context [ handleAddToWorkspace_resume ?r ?a ?k ?settled ?w2 ] =>
        pose proof (handleAddToWorkspace_resume_leaves_alone r a k settled w2) as Hframe
    end.
    unfold add_leaves_alone in *. simpl in Hframe. exact Hframe.
  - unfold handleAddToWorkspace_try, try_catch_finally, throw, bind, ret. simpl.
    repeat split.
Qed.

(** X10. Both halves of [handleAddToWorkspace] end with at most one of
    the two messages non-empty: the part up to the call (the guard
    included), for an article record, and the part after the call,
    whatever the call settled to and whatever was on the screen. *)
Theorem add_shows_one_message (r : State) (props : list (string * JsVal)) (w : World) :
  (let w1 := snd (handleAddToWorkspace r (JObj props) w) in
   truthy (error (screen w1)) = false \/ successMessage (screen w1) = "")
  /\ forall (article articleKey : JsVal) (settled : Completion JsVal) (w2 : World),
       let w3 := snd (handleAddToWorkspace_resume r article articleKey settled w2) in
       truthy (error (screen w3)) = false \/ successMessage (screen w3) = "".
Proof.
  split.
  - apply handleAddToWorkspace_messages_exclusive.
  - intros article articleKey settled w2.
    apply handleAddToWorkspace_resume_messages_exclusive.
Qed.

(** X11. An add action that runs from click to settlement with nothing
    in between, for any article value and whatever the request layer
    answers, removes nothing from the set of added identifiers. *)
Theorem add_run_keeps_added
    (API_URL : string) (api : Request -> Outcome) (article : JsVal) (w : World)
    (v : JsVal) :
  Set_has (addedArticles (screen w)) v = true ->
  Set_has (addedArticles (screen (snd (add_to_completion API_URL api article w)))) v
  = true.
Proof. apply add_to_completion_keeps_added. Qed.

Lemma add_run_keeps_added_witness :
  let w := snd (add_to_completion Samples.backend (fun _ => Fulfilled Samples.stored)
                  Samples.storm
                  (Samples.world_of (Samples.typed "storm" Samples.workspace))) in
  Set_has (addedArticles
             (screen (snd (add_to_completion Samples.backend
                             (fun _ => Fulfilled Samples.stored) Samples.market w))))
          (JStr "https://a")
  = true.
Proof.
  apply (add_run_keeps_added Samples.backend (fun _ => Fulfilled Samples.stored)
           Samples.market).
  reflexivity.
Defined.

(** X12. In any configuration, the add button of a rendered article whose
    identifier is in the set of added identifiers is disabled, and any
    number of clicks on it changes nothing and sends nothing. *)
Theorem click_on_added_article_does_nothing
    (API_URL : string) (c : Config) (index : nat) (article articleKey : JsVal) :
  rendered_article (screen (world c)) index = Some article ->
  articleKey_of article = Normal articleKey ->
  Set_has (addedArticles (screen (world c))) articleKey = true ->
  addButton_disabled (screen (world c)) article = Normal true
  /\ forall n, run API_URL c (repeat (ClickAdd index) n) = c.
Proof.
  intros Hart Hkey Hhas. split.
  - now apply (added_article_button_disabled _ _ articleKey).
  - now apply (click_on_added_article_ignored API_URL c index article articleKey).
Qed.

Lemma click_on_added_article_does_nothing_witness :
  let c := run Samples.backend (mounted (Some Samples.workspace) Samples.clock)
             [Settles 0 (Fulfilled Samples.category_list);
              TypeQuery "storm"; SubmitSearch;
              Settles 0 (Fulfilled (Samples.found [Samples.storm; Samples.market]));
              ClickAdd 0; Settles 0 (Fulfilled Samples.stored)] in
  addButton_disabled (screen (world c)) Samples.storm = Normal true
  /\ forall n, run Samples.backend c (repeat (ClickAdd 0) n) = c.
Proof.
  apply (click_on_added_article_does_nothing Samples.backend _ 0 Samples.storm
           (JStr "https://a")); reflexivity.
Defined.

(** ** Loading the categories *)

Section CategoryEffects.

Variable API_URL : string.

Lemma loadCategories_resume_leaves_alone settled w :
  categories_leave_alone w (snd (loadCategories_resume settled w)).
Proof.
  unfold loadCategories_resume, bind, eval, get.
  destruct settled as [ response | e ]; [ | repeat split ].
  repeat match goal with
         | |- context [ if ?b then _ else _ ] => destruct b
         end; repeat split.
Qed.

End CategoryEffects.

(** X13. When the category request is rejected, [loadCategories] finishes
    without throwing and writes nothing but the client's console entry:
    the category list stays as it was and no error is shown. *)
Theorem failed_category_load_is_silent (API_URL : string) error (w : World) :
  categories_to_completion API_URL (fun _ => Rejected error) w
  = (Normal tt, logged [("Error fetching news categories:", JObj error)] w).
Proof.
  unfold categories_to_completion. now rewrite perform_rejected.
Qed.

(** X14. When the category request is fulfilled with a response object,
    [loadCategories] sets the category list to [data.categories], or to
    the empty array when that is falsy, and changes nothing else;
    when the response has no [data] (it is [undefined] or [null]) the read
    of [categories] throws out of [loadCategories] and nothing changes. *)
Theorem fulfilled_category_load_sets_list (API_URL : string) response (w : World) :
  is_nullish response = false ->
  categories_to_completion API_URL (fun _ => Fulfilled response) w
  = (if is_nullish (member response "data")
     then (Throw (type_error (member response "data") "categories"), w)
     else (Normal tt,
           snd (setCategories
                  (or_else (member (member response "data") "categories") (JArr []))
                  w))).
Proof.
  intros Hresp. unfold categories_to_completion.
  rewrite (perform_fulfilled API_URL response _ _ Hresp).
  unfold loadCategories_resume, bind, eval, success_result. simpl.
  unfold get. now destruct (is_nullish (member response "data")).
Qed.

Lemma fulfilled_category_load_sets_list_witness :
  categories_to_completion Samples.backend
    (fun _ => Fulfilled Samples.category_list)
    (Samples.world_of (Samples.typed "" Samples.workspace))
  = (Normal tt,
     snd (setCategories (JArr [JStr "business"; JStr "science"])
            (Samples.world_of (Samples.typed "" Samples.workspace)))).
Proof.
  apply (fulfilled_category_load_sets_list Samples.backend Samples.category_list
           (Samples.world_of (Samples.typed "" Samples.workspace))).
  reflexivity.
Defined.

(** ** Events one after another *)

Section StepFacts.

Variable API_URL : string.

(** The argument object of an article that is not [undefined] or [null]. *)
Lemma articleData_returns r article w :
  is_nullish article = false ->
  is_nullish (activeWorkspace r) = false ->
  exists data, articleData r article w = (Normal data, w).
Proof.
  intros Hart Hws.
  unfold articleData, or_lazy, bind, eval, ret, Date_now_toISOString.
  rewrite !(get_not_nullish _ _ Hart), (get_not_nullish _ _ Hws).
  repeat match goal with
         | |- context [ if ?b then _ else _ ] => destruct b
         end; eexists; reflexivity.
Qed.

Lemma articleKey_of_not_nullish article articleKey :
  articleKey_of article = Normal articleKey -> is_nullish article = false.
Proof.
  unfold articleKey_of, get. now destruct (is_nullish article).
Qed.

Lemma handleAddToWorkspace_issues_any r article articleKey w :
  truthy (activeWorkspace r) = true ->
  articleKey_of article = Normal articleKey ->
  exists data,
    handleAddToWorkspace r article w
    = (Normal (Awaiting (AddNewsToWorkspace data)
                        (handleAddToWorkspace_resume r article articleKey)),
       snd (setSuccessMessage ""
              (snd (setError (JStr "")
                      (snd (setIsAdding
                              (<[ToString articleKey := true]> (isAdding r)) w)))))).
Proof.
  intros Hws Hkey.
  destruct (articleData_returns r article
              (snd (setSuccessMessage ""
                      (snd (setError (JStr "")
                              (snd (setIsAdding
                                      (<[ToString articleKey := true]> (isAdding r))
                                      w))))))
              (articleKey_of_not_nullish _ _ Hkey) (truthy_not_nullish _ Hws))
    as (data & Hdata).
  exists data. unfold handleAddToWorkspace. rewrite Hws.
  change (negb true) with false. cbv iota.
  unfold bind at 1. unfold eval at 1. rewrite Hkey.
  unfold bind, attempt. cbv beta.
  rewrite setIsAdding_returns. cbv beta iota.
  rewrite setError_returns. cbv beta iota.
  rewrite setSuccessMessage_returns. cbv beta iota.
  now rewrite Hdata.
Qed.

(** What an enabled add button says about the state. *)
Lemma addButton_enabled s article :
  addButton_disabled s article = Normal false ->
  exists articleKey,
    articleKey_of article = Normal articleKey
    /\ Set_has (addedArticles s) articleKey = false
    /\ isAdding_flag (isAdding s) articleKey = false
    /\ truthy (activeWorkspace s) = true.
Proof.
  unfold addButton_disabled.
  destruct (articleKey_of article) as [ articleKey | e ]; [ | discriminate ].
  intros [= H]. exists articleKey.
  apply orb_false_elim in H as [H Hws]. apply orb_false_elim in H as [Hadded Hflag].
  repeat split; trivial. now apply negb_false_iff.
Qed.

Lemma searchButton_enabled s :
  searchButton_disabled s = false ->
  loading s = false /\ trim (query s) <> "".
Proof.
  unfold searchButton_disabled. intros H.
  apply orb_false_elim in H as [Hload Hq]. split; [ exact Hload | ].
  apply negb_false_iff in Hq. now apply truthy_JStr.
Qed.

End StepFacts.

(** X15. A second click on the same add button, with no other event in
    between, changes nothing: the first click either did nothing (button
    disabled or not rendered) or marked the identifier pending, which
    disables the button. *)
Theorem second_click_ignored (API_URL : string) (c : Config) (index : nat) :
  step API_URL (step API_URL c (ClickAdd index)) (ClickAdd index)
  = step API_URL c (ClickAdd index).
Proof.
  destruct (rendered_article (screen (world c)) index) as [ article | ] eqn:Hart;
    [ | assert (H : step API_URL c (ClickAdd index) = c)
          by (unfold step; now rewrite Hart);
        now rewrite !H ].
  destruct (addButton_disabled (screen (world c)) article) as [ [ | ] | e ] eqn:Hbtn;
    try (assert (H : step API_URL c (ClickAdd index) = c)
           by (unfold step; now rewrite Hart, Hbtn);
         now rewrite !H).
  destruct (addButton_enabled _ _ Hbtn) as (articleKey & Hkey & _ & _ & Hws).
  destruct (handleAddToWorkspace_issues_any (screen (world c)) article articleKey
              (world c) Hws Hkey) as (data & Hrun).
  assert (Hfirst : step API_URL c (ClickAdd index)
                   = {| world := snd (setSuccessMessage ""
                                        (snd (setError (JStr "")
                                                (snd (setIsAdding
                                                        (<[ToString articleKey := true]>
                                                           (isAdding (screen (world c))))
                                                        (world c)))))) ;
                        pending := (pending c
                                    ++ [(AddNewsToWorkspace data,
                                         handleAddToWorkspace_resume
                                           (screen (world c)) article articleKey)])%list |}).
  { unfold step. rewrite Hart, Hbtn. unfold invoke. now rewrite Hrun. }
  rewrite Hfirst. unfold step at 1. simpl.
  unfold rendered_article in Hart |- *. simpl. rewrite Hart.
  unfold addButton_disabled. rewrite Hkey. simpl.
  unfold isAdding_flag. rewrite lookup_insert_eq. simpl.
  now rewrite orb_true_r.
Qed.

(** X16. A second submission, with no other event in between, changes
    nothing: the first either did nothing (button disabled) or set the
    loading flag, which disables the button. *)
Theorem second_submit_ignored (API_URL : string) (c : Config) :
  step API_URL (step API_URL c SubmitSearch) SubmitSearch
  = step API_URL c SubmitSearch.
Proof.
  destruct (searchButton_disabled (screen (world c))) eqn:Hbtn.
  - assert (H : step API_URL c SubmitSearch = c)
      by (unfold step; now rewrite Hbtn).
    now rewrite !H.
  - destruct (searchButton_enabled _ Hbtn) as [_ Hq].
    assert (Hfirst : step API_URL c SubmitSearch
                     = invoke (handleSearch (screen (world c))) c)
      by (unfold step; now rewrite Hbtn).
    rewrite Hfirst. unfold invoke.
    rewrite (handleSearch_submits _ (world c) Hq).
    unfold step. simpl. reflexivity.
Qed.

(** ** What every reachable configuration keeps *)

Section SessionFacts.

Variable API_URL : string.

Lemma in_flight_snoc {K} kind (l : list (ClientCall * K)) entry :
  in_flight kind (l ++ [entry])
  = (in_flight kind l + (if kind (fst entry) then 1 else 0))%nat.
Proof.
  unfold in_flight. rewrite List.filter_app, List.length_app. simpl.
  now destruct (kind (fst entry)).
Qed.

Lemma in_flight_remove_nth {K} kind (l : list (ClientCall * K)) i entry :
  nth_error l i = Some entry ->
  in_flight kind l
  = (in_flight kind (remove_nth i l) + (if kind (fst entry) then 1 else 0))%nat.
Proof.
  revert i. induction l as [ | x l IHl ]; intros [ | i ] H; try discriminate.
  - injection H as ->. unfold in_flight. simpl.
    destruct (kind (fst entry)); simpl; lia.
  - simpl in H. specialize (IHl i H). unfold in_flight in *. simpl.
    destruct (kind (fst x)); simpl; lia.
Qed.

Lemma Forall_remove_nth {A} (P : A -> Prop) (l : list A) i :
  Forall P l -> Forall P (remove_nth i l).
Proof.
  intros H. revert i. induction H as [ | x l Hx Hl IHl ]; intros [ | i ]; simpl;
    try constructor; auto.
Qed.

Lemma Forall_nth_error {A} (P : A -> Prop) (l : list A) i x :
  Forall P l -> nth_error l i = Some x -> P x.
Proof.
  intros H Hi. rewrite Forall_forall in H. apply H.
  apply list_elem_of_In. eapply nth_error_In. exact Hi.
Qed.

(** The part after the call of an add action shows a success message only
    together with a timer that will clear it. *)
Lemma handleAddToWorkspace_resume_timer r article articleKey settled w :
  let w' := snd (handleAddToWorkspace_resume r article articleKey settled w) in
  successMessage (screen w') <> "" -> timers w' <> [].
Proof.
  unfold handleAddToWorkspace_resume, handleAddToWorkspace_try,
    handleAddToWorkspace_settled, try_catch_finally, bind, eval, get.
  destruct settled as [ response | e ]; [ | simpl; congruence ].
  repeat match goal with
         | |- context [ if ?b then _ else _ ] => destruct b
         end; simpl; try congruence.
  intros _ H. now apply app_eq_nil in H as [_ H].
Qed.

Lemma kept_mounted saved clock :
  kept (workspace_at_mount saved) (mounted saved clock).
Proof.
  destruct saved as [ v | ]; split; simpl; try reflexivity; try congruence;
    try (repeat constructor).
Qed.

(** Events that write none of the fields the session invariant reads. *)
Lemma kept_transfer ws c c' :
  kept ws c ->
  pending c' = pending c ->
  activeWorkspace (screen (world c')) = activeWorkspace (screen (world c)) ->
  loading (screen (world c')) = loading (screen (world c)) ->
  articles (screen (world c')) = articles (screen (world c)) ->
  successMessage (screen (world c')) = successMessage (screen (world c)) ->
  timers (world c') = timers (world c) ->
  addedArticles (screen (world c')) = addedArticles (screen (world c)) ->
  isAdding (screen (world c')) = isAdding (screen (world c)) ->
  kept ws c'.
Proof.
  intros [Hws Hpend Hone Hres Htimer Hnone] Ep Ews El Ea Es Et Ead Eis.
  split; rewrite ?Ep, ?Ews, ?El, ?Ea, ?Es, ?Et, ?Ead, ?Eis; assumption.
Qed.

Lemma kept_submit ws c :
  kept ws c ->
  searchButton_disabled (screen (world c)) = false ->
  kept ws (invoke (handleSearch (screen (world c))) c).
Proof.
  intros [Hws Hpend Hone Hres Htimer Hnone] Hbtn.
  destruct (searchButton_enabled _ Hbtn) as [Hload Hq].
  unfold invoke. rewrite (handleSearch_submits _ (world c) Hq).
  rewrite Hload in Hone.
  split; simpl; trivial.
  - apply Forall_app. split; [ exact Hpend | repeat constructor ].
  - rewrite in_flight_snoc, Hone. reflexivity.
  - intros Hfalsy. destruct (Hnone Hfalsy) as (Hadd & Hset & Hflags).
    rewrite in_flight_snoc, Hadd. repeat split; trivial.
Qed.

Lemma kept_click ws c article :
  kept ws c ->
  addButton_disabled (screen (world c)) article = Normal false ->
  kept ws (invoke (handleAddToWorkspace (screen (world c)) article) c).
Proof.
  intros [Hws Hpend Hone Hres Htimer Hnone] Hbtn.
  destruct (addButton_enabled _ _ Hbtn) as (articleKey & Hkey & _ & _ & Htruthy).
  destruct (handleAddToWorkspace_issues_any (screen (world c)) article articleKey
              (world c) Htruthy Hkey) as (data & Hrun).
  unfold invoke. rewrite Hrun.
  split; simpl; trivial.
  - apply Forall_app. split; [ exact Hpend | repeat constructor ].
  - now rewrite in_flight_snoc, Nat.add_0_r.
  - congruence.
  - congruence.
Qed.

Lemma kept_settle ws c index o call resume :
  kept ws c ->
  nth_error (pending c) index = Some (call, resume) ->
  kept ws
    (act (fun w =>
            let (settled, w') := perform API_URL (fun _ => o) call w in
            resume settled w')
         {| world := world c; pending := remove_nth index (pending c) |}).
Proof.
  intros [Hws Hpend Hone Hres Htimer Hnone] Hnth.
  pose proof (Forall_nth_error _ _ _ _ Hpend Hnth) as Hwaits.
  pose proof (in_flight_remove_nth is_search _ _ _ Hnth) as Hsearches.
  pose proof (in_flight_remove_nth is_add _ _ _ Hnth) as Hadds.
  pose proof (Forall_remove_nth _ _ index Hpend) as Hpend'.
  unfold act. cbn [world pending].
  destruct (perform_logs API_URL (fun _ => o) call (world c))
    as (result & log & Hrun).
  rewrite Hrun.
  inversion Hwaits as [ q cat l n | | data r article articleKey ]; subst call resume;
    cbn [fst is_search is_add] in Hsearches, Hadds.
  - (* the search settles *)
    destruct (handleSearch_resume_settles (Normal result) (logged log (world c)))
      as (w' & Hres' & Hload').
    pose proof (handleSearch_resume_leaves_alone (Normal result) (logged log (world c)))
      as (Et & _ & _ & _ & _ & _ & Ead & Ews & Eis & Es).
    rewrite Hres' in *. cbn [snd] in *. simpl in Et, Ead, Ews, Eis, Es.
    split; cbn [world pending]; trivial.
    + congruence.
    + rewrite Hload'. destruct (loading (screen (world c))); lia.
    + rewrite Hload'. discriminate.
    + rewrite Es, Et. exact Htimer.
    + intros Hfalsy. destruct (Hnone Hfalsy) as (Hadd & Hset & Hflags).
      repeat split; [ lia | congruence | congruence ].
  - (* the categories settle *)
    pose proof (loadCategories_resume_leaves_alone (Normal result) (logged log (world c)))
      as (Et & _ & _ & _ & _ & Ea & El & _ & Ead & Ews & Eis & Es).
    simpl in Et, Ea, El, Ead, Ews, Eis, Es.
    split; cbn [world pending]; trivial.
    + congruence.
    + rewrite El. lia.
    + rewrite El, Ea. exact Hres.
    + rewrite Es, Et. exact Htimer.
    + intros Hfalsy. destruct (Hnone Hfalsy) as (Hadd & Hset & Hflags).
      repeat split; [ lia | congruence | congruence ].
  - (* an add action settles *)
    pose proof (handleAddToWorkspace_resume_leaves_alone r article articleKey
                  (Normal result) (logged log (world c)))
      as (_ & _ & _ & _ & Ea & El & _ & Ews).
    simpl in Ea, El, Ews.
    split; cbn [world pending]; trivial.
    + congruence.
    + rewrite El. lia.
    + rewrite El, Ea. exact Hres.
    + apply handleAddToWorkspace_resume_timer.
    + intros Hfalsy. destruct (Hnone Hfalsy) as (Hadd & _). lia.
Qed.

Lemma kept_step ws c e : kept ws c -> kept ws (step API_URL c e).
Proof.
  intros Hkept.
  destruct e as [ q | x | l | | index | index o | | t ]; unfold step.
  - destruct (loading (screen (world c))); [ exact Hkept | ].
    now apply (kept_transfer ws c).
  - destruct (loading (screen (world c))); [ exact Hkept | ].
    now apply (kept_transfer ws c).
  - destruct (loading (screen (world c))); [ exact Hkept | ].
    now apply (kept_transfer ws c).
  - destruct (searchButton_disabled (screen (world c))) eqn:Hbtn; [ exact Hkept | ].
    now apply kept_submit.
  - destruct (rendered_article (screen (world c)) index) as [ article | ];
      [ | exact Hkept ].
    destruct (addButton_disabled (screen (world c)) article) as [ [ | ] | err ] eqn:Hbtn;
      try exact Hkept.
    now apply kept_click.
  - destruct (nth_error (pending c) index) as [ [call resume] | ] eqn:Hnth;
      [ | exact Hkept ].
    now apply kept_settle.
  - destruct (timers (world c)) as [ | d rest ] eqn:Htimers; [ exact Hkept | ].
    destruct Hkept as [Hws Hpend Hone Hres Htimer Hnone].
    split; simpl; trivial. congruence.
  - now apply (kept_transfer ws c).
Qed.

Lemma kept_run ws c events : kept ws c -> kept ws (run API_URL c events).
Proof.
  revert c. induction events as [ | e events IH ]; intros c Hkept; [ exact Hkept | ].
  apply IH. now apply kept_step.
Qed.

Lemma kept_reachable saved clock c :
  reachable API_URL saved clock c -> kept (workspace_at_mount saved) c.
Proof.
  intros [events <-]. apply kept_run, kept_mounted.
Qed.

End SessionFacts.

(** X17. The active workspace of every reachable configuration is the one
    the mount effect read from storage ([null] when nothing was stored):
    no event and no settling call changes it. *)
Theorem workspace_never_changes
    (API_URL : string) (saved : option JsVal) (clock : string) (c : Config) :
  reachable API_URL saved clock c ->
  activeWorkspace (screen (world c)) = workspace_at_mount saved.
Proof. intros H. apply (kept_reachable API_URL saved clock c H). Qed.

Lemma workspace_never_changes_witness :
  activeWorkspace
    (screen (world (run Samples.backend
                      (mounted (Some Samples.workspace) Samples.clock)
                      Samples.both_adds_settled)))
  = Samples.workspace.
Proof.
  apply (workspace_never_changes Samples.backend (Some Samples.workspace) Samples.clock).
  exists Samples.both_adds_settled. reflexivity.
Defined.

(** X18. In every reachable configuration at most one search call is in
    flight, and one is in flight exactly when the loading flag is set. *)
Theorem one_search_in_flight
    (API_URL : string) (saved : option JsVal) (clock : string) (c : Config) :
  reachable API_URL saved clock c ->
  in_flight is_search (pending c)
  = (if loading (screen (world c)) then 1 else 0)%nat.
Proof. intros H. apply (kept_reachable API_URL saved clock c H). Qed.

Lemma one_search_in_flight_witness :
  let c := run Samples.backend (mounted (Some Samples.workspace) Samples.clock)
             [TypeQuery "storm"; SubmitSearch; SubmitSearch] in
  in_flight is_search (pending c)
  = (if loading (screen (world c)) then 1 else 0)%nat.
Proof.
  apply (one_search_in_flight Samples.backend (Some Samples.workspace) Samples.clock).
  exists [TypeQuery "storm"; SubmitSearch; SubmitSearch]. reflexivity.
Defined.

(** X19. In every reachable configuration with the loading flag set the
    article list is the empty array: results of an earlier search are
    gone from the state, not only hidden, while a search is in flight. *)
Theorem no_results_while_loading
    (API_URL : string) (saved : option JsVal) (clock : string) (c : Config) :
  reachable API_URL saved clock c ->
  loading (screen (world c)) = true ->
  articles (screen (world c)) = JArr [].
Proof. intros H. apply (kept_reachable API_URL saved clock c H). Qed.

Lemma no_results_while_loading_witness :
  articles
    (screen (world (run Samples.backend
                      (mounted (Some Samples.workspace) Samples.clock)
                      [TypeQuery "storm"; SubmitSearch;
                       Settles 1 (Fulfilled (Samples.found [Samples.storm]));
                       TypeQuery "rain"; SubmitSearch])))
  = JArr [].
Proof.
  apply (no_results_while_loading Samples.backend (Some Samples.workspace)
           Samples.clock).
  - exists [TypeQuery "storm"; SubmitSearch;
            Settles 1 (Fulfilled (Samples.found [Samples.storm]));
            TypeQuery "rain"; SubmitSearch].
    reflexivity.
  - reflexivity.
Defined.

(** X20. In every reachable configuration that shows a success message a
    timer is scheduled: the message is never left without a pending
    clear. *)
Theorem success_message_has_timer
    (API_URL : string) (saved : option JsVal) (clock : string) (c : Config) :
  reachable API_URL saved clock c ->
  successMessage (screen (world c)) <> "" ->
  timers (world c) <> [].
Proof. intros H. apply (kept_reachable API_URL saved clock c H). Qed.

Lemma success_message_has_timer_witness :
  timers (world (run Samples.backend
                   (mounted (Some Samples.workspace) Samples.clock)
                   Samples.search_during_add))
  <> [].
Proof.
  apply (success_message_has_timer Samples.backend (Some Samples.workspace)
           Samples.clock).
  - exists Samples.search_during_add. reflexivity.
  - vm_compute. discriminate.
Defined.

(** X21. When the workspace read at mount is falsy (nothing stored, or a
    stored [null], [false], [0] or [""]), no reachable configuration has
    an add call in flight, an identifier in the set of added identifiers,
    or a pending flag: nothing is ever sent to a workspace. *)
Theorem nothing_added_without_workspace
    (API_URL : string) (saved : option JsVal) (clock : string) (c : Config) :
  reachable API_URL saved clock c ->
  truthy (workspace_at_mount saved) = false ->
  in_flight is_add (pending c) = 0%nat
  /\ addedArticles (screen (world c)) = []
  /\ isAdding (screen (world c)) = ∅.
Proof. intros H. apply (kept_reachable API_URL saved clock c H). Qed.

Lemma nothing_added_without_workspace_witness :
  let c := run Samples.backend (mounted None Samples.clock)
             [TypeQuery "storm"; SubmitSearch;
              Settles 1 (Fulfilled (Samples.found [Samples.storm; Samples.market]));
              ClickAdd 0; ClickAdd 1] in
  in_flight is_add (pending c) = 0%nat
  /\ addedArticles (screen (world c)) = []
  /\ isAdding (screen (world c)) = ∅.
Proof.
  apply (nothing_added_without_workspace Samples.backend None Samples.clock).
  - exists [TypeQuery "storm"; SubmitSearch;
            Settles 1 (Fulfilled (Samples.found [Samples.storm; Samples.market]));
            ClickAdd 0; ClickAdd 1].
    reflexivity.
  - reflexivity.
Defined.

(** X22. Articles are told apart by their identifier only: once an add
    action for an article record was fulfilled, and the identifier is a
    primitive value (a string, a number, a boolean, [null] or
    [undefined], which a [Set] compares by value), the button of every
    article with the same identifier (the same [url], or the same [title]
    when neither has a [url]) is disabled too. *)
Theorem fulfilled_add_marks_same_identifier
    (API_URL : string) response (props : list (string * JsVal)) (other : JsVal)
    (w : World) :
  truthy (activeWorkspace (screen w)) = true ->
  is_nullish response = false ->
  is_primitive (or_else (member (JObj props) "url") (member (JObj props) "title"))
  = true ->
  articleKey_of other = articleKey_of (JObj props) ->
  addButton_disabled
    (screen (snd (add_to_completion API_URL (fun _ => Fulfilled response)
                    (JObj props) w)))
    other
  = Normal true.
Proof.
  intros Hws Hresp _ Hsame.
  destruct (add_to_completion_object API_URL (fun _ => Fulfilled response) props w Hws)
    as (data & Hrun).
  cbv zeta in Hrun. rewrite Hrun.
  rewrite (perform_fulfilled API_URL response _ _ Hresp).
  rewrite (handleAddToWorkspace_resume_success _ props _ _ _
             (truthy_not_nullish _ Hws)).
  rewrite articleKey_of_object in Hsame.
  apply (added_article_button_disabled _ _ _ Hsame).
  simpl. apply Set_of_snoc_has.
Qed.

Lemma fulfilled_add_marks_same_identifier_witness :
  addButton_disabled
    (screen (snd (add_to_completion Samples.backend (fun _ => Fulfilled Samples.stored)
                    (JObj [("title", JStr "Storm warning")])
                    (Samples.world_of (Samples.typed "storm" Samples.workspace)))))
    (JObj [("title", JStr "Storm warning"); ("source", JStr "Another wire")])
  = Normal true.
Proof.
  apply (fulfilled_add_marks_same_identifier Samples.backend Samples.stored
           [("title", JStr "Storm warning")]
           (JObj [("title", JStr "Storm warning"); ("source", JStr "Another wire")])
           (Samples.world_of (Samples.typed "storm" Samples.workspace)));
    reflexivity.
Defined.
